(** * Repository resource of the Repoflow Terraform provider

    A shallow embedding of [internal/provider/repository_resource.go] and
    of the [factory] helpers it uses, followed by the properties of the
    repository reconciler that the specification states about them.

    Handlers of the plugin framework are Go methods that mutate a response
    object, talk to the Repoflow client and write log lines.  They are
    embedded as programs of a small state monad over an environment that
    holds the remote world, the trace of client calls, the log output, the
    response diagnostics and the response state; an early [return] and a
    nil-pointer panic are two further ways in which a statement ends. *)

From Stdlib Require Import String Ascii List ZArith Bool Lia.
Import ListNotations.
Local Open Scope string_scope.

Set Implicit Arguments.

(** ** Values of the plugin framework ([types.String], [types.Bool],
    [types.Int64], [types.List]): each is null, unknown or known. *)

Module types.

Inductive String := StringNull | StringUnknown | StringValue (s : string).
Inductive Bool := BoolNull | BoolUnknown | BoolValue (b : bool).
Inductive Int64 := Int64Null | Int64Unknown | Int64Value (v : Z).
(** A list of element type [types.StringType]. *)
Inductive List := ListNull | ListUnknown | ListValue (elems : list String).

(** [ValueString] gives the empty string for null and unknown. *)
Definition ValueString (v : String) : string :=
  match v with StringValue s => s | _ => "" end.

Definition ValueBool (v : Bool) : bool :=
  match v with BoolValue b => b | _ => false end.

Definition ValueInt64 (v : Int64) : Z :=
  match v with Int64Value z => z | _ => 0%Z end.

Definition String_IsNull (v : String) : bool :=
  match v with StringNull => true | _ => false end.

Definition Int64_IsNull (v : Int64) : bool :=
  match v with Int64Null => true | _ => false end.

Definition Int64_IsUnknown (v : Int64) : bool :=
  match v with Int64Unknown => true | _ => false end.

Definition List_IsNull (v : List) : bool :=
  match v with ListNull => true | _ => false end.

(** [types.StringPointerValue]: a nil pointer is null. *)
Definition StringPointerValue (p : option string) : String :=
  match p with None => StringNull | Some s => StringValue s end.

(** [types.Int64PointerValue]: a nil pointer is null. *)
Definition Int64PointerValue (p : option Z) : Int64 :=
  match p with None => Int64Null | Some v => Int64Value v end.

(** [types.ListValueFrom(ctx, types.StringType, ids)] with [ids] a
    [[]string]: every element becomes a known string; no diagnostic. *)
Definition ListValueFrom (ids : list string) : List :=
  ListValue (map StringValue ids).

End types.

(** ** Diagnostics ([diag.Diagnostics]) *)

Module diag.

Inductive Severity := SeverityError | SeverityWarning.

Record Diagnostic := mkDiagnostic
  { Severity_ : Severity; Summary : string; Detail : string }.

Definition Diagnostics := list Diagnostic.

Definition Severity_eqb (a b : Severity) : bool :=
  match a, b with
  | SeverityError, SeverityError | SeverityWarning, SeverityWarning => true
  | _, _ => false
  end.

Definition Equal (a b : Diagnostic) : bool :=
  Severity_eqb (Severity_ a) (Severity_ b)
  && String.eqb (Summary a) (Summary b)
  && String.eqb (Detail a) (Detail b).

Definition Contains (ds : Diagnostics) (d : Diagnostic) : bool :=
  existsb (Equal d) ds.

(** [Append] skips a diagnostic the collection already holds. *)
Fixpoint Append (ds : Diagnostics) (new : Diagnostics) : Diagnostics :=
  match new with
  | [] => ds
  | d :: rest => Append (if Contains ds d then ds else (ds ++ [d])%list) rest
  end.

Definition NewErrorDiagnostic (summary detail : string) : Diagnostic :=
  mkDiagnostic SeverityError summary detail.

Definition AddError (ds : Diagnostics) (summary detail : string) : Diagnostics :=
  Append ds [NewErrorDiagnostic summary detail].

Definition HasError (ds : Diagnostics) : bool :=
  existsb (fun d => Severity_eqb (Severity_ d) SeverityError) ds.

End diag.

(** ** Go's machine integers *)

(** Two's complement value of [z] in [bits] bits. *)
Definition wrap (bits : Z) (z : Z) : Z :=
  ((z + 2 ^ (bits - 1)) mod 2 ^ bits - 2 ^ (bits - 1))%Z.

(** Width of Go's [int] on the 64-bit targets the provider is built for. *)
Definition int_bits : Z := 64.

(** ** Package [factory] *)

Module factory.

(** [IntPtrToInt64Ptr(i *int) *int64] *)
Definition IntPtrToInt64Ptr (i : option Z) : option Z :=
  match i with
  | None => None
  | Some x => Some (wrap 64 x)
  end.

(** [Int64ToPtr(v types.Int64) *int] *)
Definition Int64ToPtr (v : types.Int64) : option Z :=
  if types.Int64_IsNull v || types.Int64_IsUnknown v then None
  else Some (wrap int_bits (types.ValueInt64 v)).

End factory.

(** ** Records of the Repoflow client ([repoflow] package), with the
    fields and field types the resource uses. *)

Module repoflow.

Record Workspace := mkWorkspace { WsId : string; WsName : string }.

Record ChildRepository := mkChild { ChildId : string }.

Record Repository := mkRepository
  { Id : string;
    Name : string;
    RepositoryType : string;
    PackageType : string;
    RemoteRepositoryUrl : option string;
    RemoteRepositoryUsername : option string;
    RemoteRepositoryPassword : option string;
    IsRemoteCacheEnabled : bool;
    FileCacheTimeTillRevalidation : option Z;
    MetadataCacheTimeTillRevalidation : option Z;
    UploadLocalRepositoryId : option string;
    (** a Go slice: [None] is the nil slice *)
    ChildRepositories : option (list ChildRepository);
    (** the identifier reported by a delete *)
    RepositoryId : string }.

Record RepositoryOptions := mkRepositoryOptions
  { o_Name : string; o_PackageType : string }.

Record RepositoryRemoteOptions := mkRepositoryRemoteOptions
  { ro_Name : string;
    ro_PackageType : string;
    ro_RemoteRepositoryUrl : string;
    ro_RemoteRepositoryUsername : string;
    ro_RemoteRepositoryPassword : string;
    ro_IsRemoteCacheEnabled : bool;
    ro_FileCacheTimeTillRevalidation : option Z;
    ro_MetadataCacheTimeTillRevalidation : option Z }.

Record RepositoryVirtualOptions := mkRepositoryVirtualOptions
  { vo_Name : string;
    vo_PackageType : string;
    vo_ChildRepositoryIds : list string;
    vo_UploadLocalRepositoryId : string }.

(** A call returns an error (its message) or a record. *)
Definition Result (A : Type) : Type := (string + A)%type.

(** The client, over a remote world [W] that its calls may change. *)
Record Client (W : Type) := mkClient
  { GetWorkspace : string -> W -> Result Workspace * W;
    CreateLocalRepository :
      string -> RepositoryOptions -> W -> Result Repository * W;
    CreateRemoteRepository :
      string -> RepositoryRemoteOptions -> W -> Result Repository * W;
    CreateVirtualRepository :
      string -> RepositoryVirtualOptions -> W -> Result Repository * W;
    GetRepository : string -> string -> W -> Result Repository * W;
    DeleteRepository : string -> string -> W -> Result Repository * W }.

(** The calls a handler can make, as they are recorded in the trace. *)
Inductive Call :=
| CallGetWorkspace (workspace : string)
| CallCreateLocalRepository (workspace : string) (opts : RepositoryOptions)
| CallCreateRemoteRepository (workspace : string) (opts : RepositoryRemoteOptions)
| CallCreateVirtualRepository (workspace : string) (opts : RepositoryVirtualOptions)
| CallGetRepository (workspaceId repositoryId : string)
| CallDeleteRepository (workspaceId repositoryId : string).

End repoflow.

(** ** The resource data model *)

(** [RepositoryResourceModel] *)
Record RepositoryResourceModel := mkModel
  { Name : types.String;
    Id : types.String;
    WorkspaceId : types.String;
    PackageType : types.String;
    RepositoryType : types.String;
    RepositoryId : types.String;
    RemoteRepositoryUrl : types.String;
    RemoteRepositoryUsername : types.String;
    RemoteRepositoryPassword : types.String;
    RemoteCacheEnabled : types.Bool;
    FileCacheTimeTillRevalidation : types.Int64;
    MetadataCacheTimeTillRevalidation : types.Int64;
    ChildRepositoryIds : types.List;
    UploadLocalRepositoryId : types.String }.

(** The zero value of the model ([var data RepositoryResourceModel]):
    every attribute is null. *)
Definition zeroModel : RepositoryResourceModel :=
  mkModel types.StringNull types.StringNull types.StringNull types.StringNull
          types.StringNull types.StringNull types.StringNull types.StringNull
          types.StringNull types.BoolNull types.Int64Null types.Int64Null
          types.ListNull types.StringNull.

(** ** Validators of the schema *)

(** [stringvalidator.OneOf]: null and unknown values are not checked. *)
Definition OneOf (allowed : list string) (v : types.String) : bool :=
  match v with
  | types.StringValue s => existsb (String.eqb s) allowed
  | _ => true
  end.

(** The validators the schema declares for ["repository_type"]. *)
Definition repository_type_validator : types.String -> bool :=
  OneOf ["local"; "remote"; "virtual"].

(** The validators the schema declares for ["package_type"]. *)
Definition package_type_validator : types.String -> bool :=
  OneOf ["cargo"; "composer"; "debian"; "docker"; "gems"; "go"; "helm";
         "maven"; "npm"; "nuget"; "pypi"; "rpm"; "universal"].

(** ** Log output ([tflog]) *)

Module tflog.

Inductive Level := LevelTrace | LevelDebug.

(** A value of the field map given to a log call. *)
Inductive Field :=
| FString (s : string)
| FRepositoryOptions (opts : repoflow.RepositoryOptions)
| FRepositoryRemoteOptions (opts : repoflow.RepositoryRemoteOptions)
| FRepositoryVirtualOptions (opts : repoflow.RepositoryVirtualOptions).

Record Entry := mkEntry
  { level : Level; msg : string; fields : list (string * Field) }.

End tflog.

(** ** Strings *)

Definition slash : ascii := "/"%char.

(** [strings.Split(s, "/")] *)
Fixpoint Split (s : string) : list string :=
  match s with
  | EmptyString => [EmptyString]
  | String c rest =>
      if Ascii.eqb c slash then EmptyString :: Split rest
      else match Split rest with
           | h :: t => String c h :: t
           | [] => [String c EmptyString]
           end
  end.

(** [strings.Join(parts, sep)] *)
Definition Join (parts : list string) (sep : string) : string :=
  String.concat sep parts.

Definition dquote : string := String (ascii_of_nat 34) EmptyString.

Definition hexDigit (n : nat) : string :=
  String (nth n (list_ascii_of_string "0123456789abcdef") "0"%char)
         EmptyString.

(** How [%q] writes one byte of ASCII text: a double quote and a backslash
    get a backslash, the control characters their escape. *)
Definition quoteByte (c : ascii) : string :=
  let n := nat_of_ascii c in
  if Nat.eqb n 34 then "\" ++ dquote
  else if Nat.eqb n 92 then "\\"
  else if Nat.eqb n 7 then "\a"
  else if Nat.eqb n 8 then "\b"
  else if Nat.eqb n 12 then "\f"
  else if Nat.eqb n 10 then "\n"
  else if Nat.eqb n 13 then "\r"
  else if Nat.eqb n 9 then "\t"
  else if Nat.eqb n 11 then "\v"
  else if Nat.ltb n 32 || Nat.eqb n 127
       then "\x" ++ hexDigit (n / 16) ++ hexDigit (n mod 16)
  else String c EmptyString.

Fixpoint quoteBytes (s : string) : string :=
  match s with
  | EmptyString => EmptyString
  | String c rest => quoteByte c ++ quoteBytes rest
  end.

(** The [%q] verb of [fmt.Sprintf] on ASCII text.  Bytes above 127 are
    kept as they are, which is what [%q] does with printable runes; the
    escapes it writes for other runes and for invalid UTF-8 are not
    modelled, and no property below depends on the quoted text. *)
Definition Quote (s : string) : string := dquote ++ quoteBytes s ++ dquote.

(** ** The handler monad *)

(** What one invocation sees and changes: the remote world behind the
    client, the trace of client calls (oldest first), the log output
    (oldest first), and the two parts of the framework's response. *)
Record Env (W : Type) := mkEnv
  { world : W;
    calls : list repoflow.Call;
    logs : list tflog.Entry;
    Diagnostics : diag.Diagnostics;
    State : option RepositoryResourceModel }.

(** How a statement ends: it falls through with a value, it returns from
    the handler, or it panics. *)
Inductive Flow (E A : Type) :=
| Next (a : A) (e : E)
| Return (e : E)
| Panic (e : E).
Arguments Next {E A} a e.
Arguments Return {E A} e.
Arguments Panic {E A} e.

Definition Handler (W A : Type) : Type := Env W -> Flow (Env W) A.

Definition ret {W A} (a : A) : Handler W A := fun e => Next a e.

Definition bind {W A B} (m : Handler W A) (k : A -> Handler W B) : Handler W B :=
  fun e =>
    match m e with
    | Next a e' => k a e'
    | Return e' => Return e'
    | Panic e' => Panic e'
    end.

Declare Scope handler_scope.
Delimit Scope handler_scope with handler.
Notation "x <- m ;; k" := (bind m (fun x => k))
  (at level 100, m at next level, right associativity) : handler_scope.
Notation "m ;; k" := (bind m (fun _ => k))
  (at level 100, right associativity) : handler_scope.

(** How an invocation ends. *)
Inductive Outcome (W : Type) :=
| Returned (e : Env W)
| Panicked (e : Env W).
Arguments Returned {W} e.
Arguments Panicked {W} e.

Definition final {W} (o : Outcome W) : Env W :=
  match o with Returned e | Panicked e => e end.

(** The framework calls a handler with empty diagnostics and the response
    state it prepared ([state0]). *)
Definition invoke {W A} (h : Handler W A) (w : W)
           (state0 : option RepositoryResourceModel) : Outcome W :=
  match h (mkEnv w [] [] [] state0) with
  | Next _ e | Return e => Returned e
  | Panic e => Panicked e
  end.

Section Statements.

Variable W : Type.
Local Open Scope handler_scope.

(** [return] *)
Definition return_ {A} : Handler W A := fun e => Return e.

(** a nil-pointer dereference *)
Definition panic {A} : Handler W A := fun e => Panic e.

(** [resp.Diagnostics.AddError(summary, detail)] *)
Definition AddError (summary detail : string) : Handler W unit :=
  fun e => Next tt (mkEnv (world e) (calls e) (logs e)
                          (diag.AddError (Diagnostics e) summary detail)
                          (State e)).

(** [resp.Diagnostics.Append(ds...)] *)
Definition Append (ds : diag.Diagnostics) : Handler W unit :=
  fun e => Next tt (mkEnv (world e) (calls e) (logs e)
                          (diag.Append (Diagnostics e) ds)
                          (State e)).

(** [resp.Diagnostics.HasError()] *)
Definition HasError : Handler W bool :=
  fun e => Next (diag.HasError (Diagnostics e)) e.

(** [resp.State.Set(ctx, &data)]; the diagnostics it returns are empty. *)
Definition StateSet (data : RepositoryResourceModel) : Handler W diag.Diagnostics :=
  fun e => Next [] (mkEnv (world e) (calls e) (logs e) (Diagnostics e)
                          (Some data)).

(** [req.Plan.Get(ctx, &data)] and [req.State.Get(ctx, &data)] on a value
    of the resource's schema: [data] receives it, with no diagnostic. *)
Definition Get (v : RepositoryResourceModel)
  : Handler W (RepositoryResourceModel * diag.Diagnostics) :=
  ret (v, []).

Definition log (l : tflog.Level) (msg : string)
           (fields : list (string * tflog.Field)) : Handler W unit :=
  fun e => Next tt (mkEnv (world e) (calls e)
                          (logs e ++ [tflog.mkEntry l msg fields])%list
                          (Diagnostics e) (State e)).

(** [tflog.Debug] and [tflog.Trace] *)
Definition Debug := log tflog.LevelDebug.
Definition Trace := log tflog.LevelTrace.

(** A client call: it is recorded, then runs on the remote world. *)
Definition call {A} (c : repoflow.Call) (op : W -> repoflow.Result A * W)
  : Handler W (repoflow.Result A) :=
  fun e =>
    let (r, w') := op (world e) in
    Next r (mkEnv w' (calls e ++ [c])%list (logs e) (Diagnostics e) (State e)).

(** [p.f] on a pointer [p]: panics when [p] is nil. *)
Definition deref {A} (p : option A) : Handler W A :=
  match p with
  | Some a => ret a
  | None => panic
  end.

(** The two results [(value, err)] of a Go client call. *)
Definition results {A} (r : repoflow.Result A) : option A * option string :=
  match r with
  | inl err => (None, Some err)
  | inr a => (Some a, None)
  end.

End Statements.

Arguments return_ {W A}.
Arguments panic {W A}.
Arguments AddError {W} summary detail.
Arguments Append {W} ds.
Arguments HasError {W}.
Arguments StateSet {W} data.
Arguments Get {W} v.
Arguments log {W} l msg fields.
Arguments Debug {W} msg fields.
Arguments Trace {W} msg fields.
Arguments call {W A} c op.
Arguments deref {W A} p.

(** ** [mapResponseToModel] *)

(** [mapResponseToModel(ctx, data, rp, workspaceId)]: the model after the
    call and the diagnostics returned; [None] is the panic of reading a
    field of a nil [rp], which happens before anything is assigned. *)
Definition mapResponseToModel (data : RepositoryResourceModel)
           (rp : option repoflow.Repository) (workspaceId : string)
  : option (RepositoryResourceModel * diag.Diagnostics) :=
  match rp with
  | None => None
  | Some rp =>
      let diags : diag.Diagnostics := [] in
      Some
        ({| (* We save the state id with workspaceId/repositoryId *)
            Id := types.StringValue (Join [workspaceId; repoflow.Id rp] "/");
            (* This is the real repository Id *)
            RepositoryId := types.StringValue (repoflow.Id rp);
            (* We also save the Workspace Id in the state *)
            WorkspaceId := types.StringValue workspaceId;
            (* Default attributes *)
            Name := types.StringValue (repoflow.Name rp);
            PackageType :=
              if negb (repoflow.RepositoryType rp =? "")
              then types.StringValue (repoflow.PackageType rp)
              else PackageType data;
            RepositoryType :=
              if negb (repoflow.RepositoryType rp =? "")
              then types.StringValue (repoflow.RepositoryType rp)
              else RepositoryType data;
            (* Remote attributes *)
            RemoteRepositoryUrl :=
              types.StringPointerValue (repoflow.RemoteRepositoryUrl rp);
            RemoteRepositoryUsername :=
              types.StringPointerValue (repoflow.RemoteRepositoryUsername rp);
            RemoteRepositoryPassword :=
              types.StringPointerValue (repoflow.RemoteRepositoryPassword rp);
            RemoteCacheEnabled :=
              types.BoolValue (repoflow.IsRemoteCacheEnabled rp);
            (* Cache attributes *)
            FileCacheTimeTillRevalidation :=
              types.Int64PointerValue
                (factory.IntPtrToInt64Ptr (repoflow.FileCacheTimeTillRevalidation rp));
            MetadataCacheTimeTillRevalidation :=
              types.Int64PointerValue
                (factory.IntPtrToInt64Ptr (repoflow.MetadataCacheTimeTillRevalidation rp));
            (* Virtual attributes *)
            UploadLocalRepositoryId :=
              types.StringPointerValue (repoflow.UploadLocalRepositoryId rp);
            (* ChildRepositories: objects -> ids *)
            ChildRepositoryIds :=
              match repoflow.ChildRepositories rp with
              | None => types.ListNull
              | Some children =>
                  types.ListValueFrom (map repoflow.ChildId children)
              end |},
         diags)
  end.

(** [data.ChildRepositoryIds.ElementsAs(ctx, &childIds, false)] into a
    [[]string]: a null or unknown list, or a null or unknown element, is
    not handled and is reported as an error (the framework's detail text
    is longer than the one kept here). *)
Fixpoint elementsAsStrings (elems : list types.String) : option (list string) :=
  match elems with
  | [] => Some []
  | types.StringValue s :: rest =>
      match elementsAsStrings rest with
      | Some ss => Some (s :: ss)
      | None => None
      end
  | _ :: _ => None
  end.

Definition ElementsAs (l : types.List) : list string * diag.Diagnostics :=
  let unhandled :=
    [diag.NewErrorDiagnostic "Value Conversion Error"
       "An unexpected error was encountered trying to build a value."] in
  match l with
  | types.ListValue elems =>
      match elementsAsStrings elems with
      | Some ss => (ss, [])
      | None => ([], unhandled)
      end
  | _ => ([], unhandled)
  end.

(** ** The handlers of [RepositoryResource] *)

Section RepositoryResource.

Variable W : Type.
(** [r.client] *)
Variable client : repoflow.Client W.

Local Open Scope handler_scope.
Local Abbreviation Handler := (Handler W).

Definition GetWorkspace (workspace : string) : Handler _ :=
  call (repoflow.CallGetWorkspace workspace)
       (repoflow.GetWorkspace client workspace).

Definition CreateLocalRepository (workspace : string) opts : Handler _ :=
  call (repoflow.CallCreateLocalRepository workspace opts)
       (repoflow.CreateLocalRepository client workspace opts).

Definition CreateRemoteRepository (workspace : string) opts : Handler _ :=
  call (repoflow.CallCreateRemoteRepository workspace opts)
       (repoflow.CreateRemoteRepository client workspace opts).

Definition CreateVirtualRepository (workspace : string) opts : Handler _ :=
  call (repoflow.CallCreateVirtualRepository workspace opts)
       (repoflow.CreateVirtualRepository client workspace opts).

Definition GetRepository (workspaceId repositoryId : string) : Handler _ :=
  call (repoflow.CallGetRepository workspaceId repositoryId)
       (repoflow.GetRepository client workspaceId repositoryId).

Definition DeleteRepository (workspaceId repositoryId : string) : Handler _ :=
  call (repoflow.CallDeleteRepository workspaceId repositoryId)
       (repoflow.DeleteRepository client workspaceId repositoryId).

(** [r.mapResponseToModel(ctx, &data, rp, workspaceId)] as a statement. *)
Definition mapResponse (data : RepositoryResourceModel)
           (rp : option repoflow.Repository) (workspaceId : string)
  : Handler (RepositoryResourceModel * diag.Diagnostics) :=
  deref (mapResponseToModel data rp workspaceId).

(** The [switch repositoryType] of [Create]: it yields [(rp, err)]. *)
Definition Create_switch (data : RepositoryResourceModel)
           (workspace repositoryType : string)
  : Handler (option repoflow.Repository * option string) :=
  if repositoryType =? "local" then
    let opts :=
      repoflow.mkRepositoryOptions
        (types.ValueString (Name data))
        (types.ValueString (PackageType data)) in
    Debug "create repository with option"
          [("opts", tflog.FRepositoryOptions opts)] ;;
    r <- CreateLocalRepository workspace opts ;;
    ret (results r)
  else if repositoryType =? "remote" then
    if types.String_IsNull (RemoteRepositoryUrl data) then
      AddError "Missing parameter"
        "'remote_repository_url' is mandatory for remote repository type." ;;
      return_
    else
      let opts :=
        repoflow.mkRepositoryRemoteOptions
          (types.ValueString (Name data))
          (types.ValueString (PackageType data))
          (types.ValueString (RemoteRepositoryUrl data))
          (types.ValueString (RemoteRepositoryUsername data))
          (types.ValueString (RemoteRepositoryPassword data))
          (types.ValueBool (RemoteCacheEnabled data))
          (factory.Int64ToPtr (FileCacheTimeTillRevalidation data))
          (factory.Int64ToPtr (MetadataCacheTimeTillRevalidation data)) in
      Debug "create repository with option"
            [("opts", tflog.FRepositoryRemoteOptions opts)] ;;
      r <- CreateRemoteRepository workspace opts ;;
      ret (results r)
  else if repositoryType =? "virtual" then
    if types.List_IsNull (ChildRepositoryIds data) then
      AddError "Missing parameter"
        "`child_repository_ids` is required for virtual repository type." ;;
      return_
    else
      let (childIds, diags) := ElementsAs (ChildRepositoryIds data) in
      Append diags ;;
      failed <- HasError ;;
      if failed then return_
      else
        let uploadLocalRepositoryId :=
          types.ValueString (UploadLocalRepositoryId data) in
        let opts :=
          repoflow.mkRepositoryVirtualOptions
            (types.ValueString (Name data))
            (types.ValueString (PackageType data))
            childIds
            uploadLocalRepositoryId in
        Debug "create repository with option"
              [("opts", tflog.FRepositoryVirtualOptions opts)] ;;
        r <- CreateVirtualRepository workspace opts ;;
        ret (results r)
  else
    (* no case matches: [rp] and [err] keep their zero values *)
    ret (None, None).

(** [func (r *RepositoryResource) Create] *)
Definition Create (plan : RepositoryResourceModel) : Handler unit :=
  (* Read Terraform plan data into the model *)
  got <- Get plan ;;
  let (data, d) := got in
  Append d ;;
  failed <- HasError ;;
  if failed then return_
  else
    let workspace := types.ValueString (WorkspaceId data) in
    let packageType := types.ValueString (PackageType data) in
    let repositoryType := types.ValueString (RepositoryType data) in
    (* var workspaceId string *)
    let workspaceId0 := "" in
    ws <- GetWorkspace workspace ;;
    workspaceId <-
      match ws with
      | inl err =>
          AddError "Client Error"
            ("Unable to get worksapce " ++ workspace
             ++ ", got error: " ++ err) ;;
          ret workspaceId0
      | inr ws => ret (repoflow.WsId ws)
      end ;;
    res <- Create_switch data workspace repositoryType ;;
    let (rp, err) := res in
    match err with
    | Some err =>
        AddError "Client Error"
          ("Unable to create repository, got error: " ++ err) ;;
        return_
    | None =>
        mapped <- mapResponse data rp workspaceId ;;
        let (data, d) := mapped in
        Append d ;;
        rp <- deref rp ;;
        Trace "created a repoflow repository resource"
          [("repository_id", tflog.FString (repoflow.Id rp));
           ("package_type", tflog.FString packageType);
           ("repository_type", tflog.FString repositoryType);
           ("workspace_id", tflog.FString workspaceId);
           ("id", tflog.FString (Join [workspaceId; repoflow.Id rp] "/"))] ;;
        (* Save data into Terraform state *)
        d <- StateSet data ;;
        Append d
    end.

(** [func (r *RepositoryResource) Read] *)
Definition Read (state : RepositoryResourceModel) : Handler unit :=
  (* Read Terraform prior state data into the model *)
  got <- Get state ;;
  let (data, d) := got in
  Append d ;;
  failed <- HasError ;;
  if failed then return_
  else
    let workspaceId := types.ValueString (WorkspaceId data) in
    let repositoryId := types.ValueString (RepositoryId data) in
    r <- GetRepository workspaceId repositoryId ;;
    match r with
    | inl err =>
        AddError "Client Error"
          ("Unable to get repository " ++ repositoryId
           ++ " on workspaceId " ++ workspaceId
           ++ ", got error: " ++ err) ;;
        return_
    | inr rp =>
        mapped <- mapResponse data (Some rp)
                    (types.ValueString (WorkspaceId data)) ;;
        let (data, d) := mapped in
        Append d ;;
        failed <- HasError ;;
        if failed then return_
        else
          Trace "get a repoflow resource"
                [("id", tflog.FString (repoflow.Id rp))]
          (* the write of [data] into [resp.State] is commented out *)
    end.

(** [func (r *RepositoryResource) Update] *)
Definition Update (plan : RepositoryResourceModel) : Handler unit :=
  (* Read Terraform plan data into the model *)
  got <- Get plan ;;
  let (data, d) := got in
  Append d ;;
  failed <- HasError ;;
  if failed then return_
  else
    (* Save updated data into Terraform state *)
    d <- StateSet data ;;
    Append d.

(** [func (r *RepositoryResource) Delete] *)
Definition Delete (state : RepositoryResourceModel) : Handler unit :=
  (* Read Terraform prior state data into the model *)
  got <- Get state ;;
  let (data, d) := got in
  Append d ;;
  failed <- HasError ;;
  if failed then return_
  else
    let workspaceId := types.ValueString (WorkspaceId data) in
    let repositoryId := types.ValueString (RepositoryId data) in
    r <- DeleteRepository workspaceId repositoryId ;;
    match r with
    | inl err =>
        AddError "Client Error"
          ("Unable to delete repository, got error: " ++ err) ;;
        return_
    | inr rp =>
        Trace "deleted a repoflow resource"
              [("workspace", tflog.FString workspaceId);
               ("id", tflog.FString (repoflow.RepositoryId rp))]
    end.

(** [func (r *RepositoryResource) ImportState], on [req.ID] *)
Definition ImportState (ID : string) : Handler unit :=
  let data := zeroModel in
  let idParts := Split ID in
  match idParts with
  | [workspace; repository] =>
      if (workspace =? "") || (repository =? "") then
        AddError "Fail to import data"
          ("Id use format: workspaceId/repositoryId. You define: "
           ++ Quote ID) ;;
        return_
      else
        (* var workspaceId string *)
        let workspaceId0 := "" in
        ws <- GetWorkspace workspace ;;
        workspaceId <-
          match ws with
          | inl err =>
              AddError "Client Error"
                ("Unable to get worksapce " ++ workspaceId0
                 ++ ", got error: " ++ err) ;;
              ret workspaceId0
          | inr ws => ret (repoflow.WsId ws)
          end ;;
        r <- GetRepository workspaceId repository ;;
        match r with
        | inl err =>
            AddError "Client Error"
              ("Unable to import repository " ++ repository
               ++ " on workspaceId " ++ workspaceId
               ++ ", got error: " ++ err) ;;
            return_
        | inr rp =>
            mapped <- mapResponse data (Some rp) workspaceId ;;
            let (data, d) := mapped in
            Append d ;;
            failed <- HasError ;;
            if failed then return_
            else
              Trace "import a repoflow repository resource"
                    [("id", tflog.FString (repoflow.Id rp))] ;;
              (* Save updated data into Terraform state *)
              d <- StateSet data ;;
              Append d
        end
  | _ =>
      (* len(idParts) != 2 *)
      AddError "Fail to import data"
        ("Id use format: workspaceId/repositoryId. You define: "
         ++ Quote ID) ;;
      return_
  end.

End RepositoryResource.

(** ** A remote service to run the handlers on

    One workspace, ["example"] with id ["ws-1"], reachable by name or by
    id.  The world is the number of coming calls that fail with a
    connection error; every other call succeeds. *)

Module Fake.

Definition World := nat.

Definition answer {A} (a : repoflow.Result A) (w : World)
  : repoflow.Result A * World :=
  match w with
  | O => (a, O)
  | S n => (inl "connection refused", n)
  end.

Definition blank (id name repositoryType packageType : string)
  : repoflow.Repository :=
  repoflow.mkRepository id name repositoryType packageType
    None None None false None None None None "".

Definition GetWorkspace (workspace : string) :=
  answer (if (workspace =? "example") || (workspace =? "ws-1")
          then inr (repoflow.mkWorkspace "ws-1" "example")
          else inl "workspace not found").

Definition CreateLocalRepository (workspace : string)
           (opts : repoflow.RepositoryOptions) :=
  answer (inr (blank "r1" (repoflow.o_Name opts) "local"
                     (repoflow.o_PackageType opts))).

Definition CreateRemoteRepository (workspace : string)
           (opts : repoflow.RepositoryRemoteOptions) :=
  answer (inr (repoflow.mkRepository
                 "r2" (repoflow.ro_Name opts) "remote"
                 (repoflow.ro_PackageType opts)
                 (Some (repoflow.ro_RemoteRepositoryUrl opts))
                 (Some (repoflow.ro_RemoteRepositoryUsername opts))
                 (Some (repoflow.ro_RemoteRepositoryPassword opts))
                 (repoflow.ro_IsRemoteCacheEnabled opts)
                 (repoflow.ro_FileCacheTimeTillRevalidation opts)
                 (repoflow.ro_MetadataCacheTimeTillRevalidation opts)
                 None None "")).

Definition CreateVirtualRepository (workspace : string)
           (opts : repoflow.RepositoryVirtualOptions) :=
  answer (inr (repoflow.mkRepository
                 "r3" (repoflow.vo_Name opts) "virtual"
                 (repoflow.vo_PackageType opts)
                 None None None false None None
                 (Some (repoflow.vo_UploadLocalRepositoryId opts))
                 (Some (map repoflow.mkChild
                            (repoflow.vo_ChildRepositoryIds opts)))
                 "")).

Definition GetRepository (workspaceId repositoryId : string) :=
  answer (inr (blank repositoryId "local-example" "local" "npm")).

Definition DeleteRepository (workspaceId repositoryId : string) :=
  answer (inr (repoflow.mkRepository
                 "" "" "" "" None None None false None None None None
                 repositoryId)).

Definition client : repoflow.Client World :=
  repoflow.mkClient GetWorkspace CreateLocalRepository
    CreateRemoteRepository CreateVirtualRepository
    GetRepository DeleteRepository.

(** The declared repositories of [examples/resources/repoflow_repository],
    with the workspace given by name. *)
Definition plan (name repositoryType : string) : RepositoryResourceModel :=
  {| Name := types.StringValue name;
     Id := types.StringUnknown;
     WorkspaceId := types.StringValue "example";
     PackageType := types.StringValue "npm";
     RepositoryType := types.StringValue repositoryType;
     RepositoryId := types.StringUnknown;
     RemoteRepositoryUrl := types.StringNull;
     RemoteRepositoryUsername := types.StringNull;
     RemoteRepositoryPassword := types.StringNull;
     RemoteCacheEnabled := types.BoolValue false;
     FileCacheTimeTillRevalidation := types.Int64Unknown;
     MetadataCacheTimeTillRevalidation := types.Int64Unknown;
     ChildRepositoryIds := types.ListUnknown;
     UploadLocalRepositoryId := types.StringUnknown |}.

Definition local : RepositoryResourceModel := plan "local-example" "local".

Definition remote (password : string) : RepositoryResourceModel :=
  let p := plan "remote-example" "remote" in
  {| Name := Name p; Id := Id p; WorkspaceId := WorkspaceId p;
     PackageType := PackageType p; RepositoryType := RepositoryType p;
     RepositoryId := RepositoryId p;
     RemoteRepositoryUrl := types.StringValue "https://registry.npmjs.org";
     RemoteRepositoryUsername := types.StringValue "ci";
     RemoteRepositoryPassword := types.StringValue password;
     RemoteCacheEnabled := RemoteCacheEnabled p;
     FileCacheTimeTillRevalidation := types.Int64Null;
     MetadataCacheTimeTillRevalidation := types.Int64Null;
     ChildRepositoryIds := ChildRepositoryIds p;
     UploadLocalRepositoryId := UploadLocalRepositoryId p |}.

Definition virtual (children : types.List) (upload : types.String)
  : RepositoryResourceModel :=
  let p := plan "virtual-example" "virtual" in
  {| Name := Name p; Id := Id p; WorkspaceId := WorkspaceId p;
     PackageType := PackageType p; RepositoryType := RepositoryType p;
     RepositoryId := RepositoryId p;
     RemoteRepositoryUrl := RemoteRepositoryUrl p;
     RemoteRepositoryUsername := RemoteRepositoryUsername p;
     RemoteRepositoryPassword := RemoteRepositoryPassword p;
     RemoteCacheEnabled := RemoteCacheEnabled p;
     FileCacheTimeTillRevalidation := FileCacheTimeTillRevalidation p;
     MetadataCacheTimeTillRevalidation := MetadataCacheTimeTillRevalidation p;
     ChildRepositoryIds := children;
     UploadLocalRepositoryId := upload |}.

End Fake.

(** ** The handlers of [WorkspaceResource]

    The workspace resource has a model of its own, so its handlers run
    over an environment of their own; the statements are the same. *)

Module workspace.

(** [WorkspaceResourceModel] *)
Record WorkspaceResourceModel := mkModel
  { Name : types.String; Id : types.String }.

(** [repoflow.WorkspaceOptions] *)
Record WorkspaceOptions := mkWorkspaceOptions { o_Name : string }.

(** The workspace calls of the client. *)
Record Client (W : Type) := mkClient
  { CreateWorkspace :
      WorkspaceOptions -> W -> repoflow.Result repoflow.Workspace * W;
    GetWorkspace : string -> W -> repoflow.Result repoflow.Workspace * W;
    DeleteWorkspace : string -> W -> repoflow.Result repoflow.Workspace * W }.

Inductive Call :=
| CallCreateWorkspace (opts : WorkspaceOptions)
| CallGetWorkspace (workspace : string)
| CallDeleteWorkspace (workspace : string).

Record Env (W : Type) := mkEnv
  { world : W;
    calls : list Call;
    logs : list tflog.Entry;
    Diagnostics : diag.Diagnostics;
    State : option WorkspaceResourceModel }.

Definition Handler (W A : Type) : Type := Env W -> Flow (Env W) A.

Definition ret {W A} (a : A) : Handler W A := fun e => Next a e.

Definition bind {W A B} (m : Handler W A) (k : A -> Handler W B)
  : Handler W B :=
  fun e =>
    match m e with
    | Next a e' => k a e'
    | Return e' => Return e'
    | Panic e' => Panic e'
    end.

Declare Scope workspace_scope.
Delimit Scope workspace_scope with workspace.
Notation "x <- m ;; k" := (bind m (fun x => k))
  (at level 100, m at next level, right associativity) : workspace_scope.
Notation "m ;; k" := (bind m (fun _ => k))
  (at level 100, right associativity) : workspace_scope.

(** How an invocation ends. *)
Inductive Outcome (W : Type) :=
| Returned (e : Env W)
| Panicked (e : Env W).
Arguments Returned {W} e.
Arguments Panicked {W} e.

Definition final {W} (o : Outcome W) : Env W :=
  match o with Returned e | Panicked e => e end.

Definition invoke {W A} (h : Handler W A) (w : W)
           (state0 : option WorkspaceResourceModel) : Outcome W :=
  match h (mkEnv w [] [] [] state0) with
  | Next _ e | Return e => Returned e
  | Panic e => Panicked e
  end.

Section Handlers.

Variable W : Type.
(** [r.client] *)
Variable client : Client W.

Local Open Scope workspace_scope.

Definition return_ {A} : Handler W A := fun e => Return e.

Definition AddError (summary detail : string) : Handler W unit :=
  fun e => Next tt (mkEnv (world e) (calls e) (logs e)
                          (diag.AddError (Diagnostics e) summary detail)
                          (State e)).

Definition Append (ds : diag.Diagnostics) : Handler W unit :=
  fun e => Next tt (mkEnv (world e) (calls e) (logs e)
                          (diag.Append (Diagnostics e) ds)
                          (State e)).

Definition HasError : Handler W bool :=
  fun e => Next (diag.HasError (Diagnostics e)) e.

(** [resp.State.Set(ctx, &data)] *)
Definition StateSet (data : WorkspaceResourceModel)
  : Handler W diag.Diagnostics :=
  fun e => Next [] (mkEnv (world e) (calls e) (logs e) (Diagnostics e)
                          (Some data)).

(** [req.Plan.Get(ctx, &data)] and [req.State.Get(ctx, &data)] *)
Definition Get (v : WorkspaceResourceModel)
  : Handler W (WorkspaceResourceModel * diag.Diagnostics) :=
  ret (v, []).

(** [tflog.Trace] *)
Definition Trace (msg : string) (fields : list (string * tflog.Field))
  : Handler W unit :=
  fun e => Next tt (mkEnv (world e) (calls e)
                          (logs e ++ [tflog.mkEntry tflog.LevelTrace msg fields])%list
                          (Diagnostics e) (State e)).

Definition call {A} (c : Call) (op : W -> repoflow.Result A * W)
  : Handler W (repoflow.Result A) :=
  fun e =>
    let (r, w') := op (world e) in
    Next r (mkEnv w' (calls e ++ [c])%list (logs e) (Diagnostics e) (State e)).

(** [func (r *WorkspaceResource) Create] *)
Definition Create (plan : WorkspaceResourceModel) : Handler W unit :=
  (* Read Terraform plan data into the model *)
  got <- Get plan ;;
  let (data, d) := got in
  Append d ;;
  failed <- HasError ;;
  if failed then return_
  else
    let workspaceName := types.ValueString (Name data) in
    let opts := mkWorkspaceOptions workspaceName in
    r <- call (CallCreateWorkspace opts) (CreateWorkspace client opts) ;;
    match r with
    | inl err =>
        AddError "Client Error"
          ("Unable to create workspace, got error: " ++ err) ;;
        return_
    | inr ws =>
        let data :=
          {| Id := types.StringValue (repoflow.WsId ws);
             Name := types.StringValue (repoflow.WsName ws) |} in
        Trace "created a repoflow resource"
              [("id", tflog.FString (repoflow.WsId ws))] ;;
        (* Save data into Terraform state *)
        d <- StateSet data ;;
        Append d
    end.

(** [func (r *WorkspaceResource) Read] *)
Definition Read (state : WorkspaceResourceModel) : Handler W unit :=
  (* Read Terraform prior state data into the model *)
  got <- Get state ;;
  let (data, d) := got in
  Append d ;;
  failed <- HasError ;;
  if failed then return_
  else
    let workspaceId := types.ValueString (Id data) in
    r <- call (CallGetWorkspace workspaceId) (GetWorkspace client workspaceId) ;;
    match r with
    | inl err =>
        AddError "Client Error"
          ("Unable to get workspace, got error: " ++ err) ;;
        return_
    | inr ws =>
        let data :=
          {| Id := types.StringValue (repoflow.WsId ws);
             Name := types.StringValue (repoflow.WsName ws) |} in
        Trace "get a repoflow resource"
              [("id", tflog.FString (repoflow.WsId ws))] ;;
        (* Save updated data into Terraform state *)
        d <- StateSet data ;;
        Append d
    end.

(** [func (r *WorkspaceResource) Update] *)
Definition Update (plan : WorkspaceResourceModel) : Handler W unit :=
  got <- Get plan ;;
  let (data, d) := got in
  Append d ;;
  failed <- HasError ;;
  if failed then return_
  else
    d <- StateSet data ;;
    Append d.

(** [func (r *WorkspaceResource) Delete] *)
Definition Delete (state : WorkspaceResourceModel) : Handler W unit :=
  got <- Get state ;;
  let (data, d) := got in
  Append d ;;
  failed <- HasError ;;
  if failed then return_
  else
    let workspaceName := types.ValueString (Name data) in
    r <- call (CallDeleteWorkspace workspaceName)
              (DeleteWorkspace client workspaceName) ;;
    match r with
    | inl err =>
        AddError "Client Error"
          ("Unable to delete workspace, got error: " ++ err) ;;
        return_
    | inr ws =>
        Trace "deleted a repoflow resource"
              [("id", tflog.FString (repoflow.WsId ws))]
    end.

(** [func (r *WorkspaceResource) ImportState]:
    [resource.ImportStatePassthroughID(ctx, path.Root("id"), req, resp)].
    When [req.ID] is not empty it sets the attribute ["id"] of the
    response state, which starts out null, to [req.ID]; when [req.ID] is
    empty it leaves the response state alone. *)
Definition ImportState (ID : string) : Handler W unit :=
  fun e =>
    if negb (ID =? "") then
      let prior :=
        match State e with
        | Some m => m
        | None => mkModel types.StringNull types.StringNull
        end in
      Next tt (mkEnv (world e) (calls e) (logs e) (Diagnostics e)
                     (Some {| Name := Name prior;
                              Id := types.StringValue ID |}))
    else Next tt e.

End Handlers.

Arguments Update {W} plan.
Arguments ImportState {W} ID.

End workspace.

(** ** The provider's [Configure] *)

Module provider.

(** [RepoflowProviderModel] *)
Record RepoflowProviderModel := mkProviderModel
  { BaseURL : types.String; ApiKey : types.String }.

(** What [repoflow.NewClient(baseURL, apiKey)] is built from. *)
Record NewClient := mkNewClient { baseURL : string; apiKey : string }.

(** The parts of [provider.ConfigureResponse] that [Configure] sets. *)
Record ConfigureResponse := mkConfigureResponse
  { Diagnostics : diag.Diagnostics;
    DataSourceData : option NewClient;
    ResourceData : option NewClient }.

(** [func (p *RepoflowProvider) Configure], the one that falls back on
    the environment; [Getenv] is [os.Getenv], which gives the empty
    string for a variable that is not set. *)
Definition Configure (Getenv : string -> string)
           (config : RepoflowProviderModel) : ConfigureResponse :=
  let data := config in
  let diags : diag.Diagnostics := diag.Append [] [] in
  if diag.HasError diags then mkConfigureResponse diags None None
  else
    let baseURL := Getenv "REPOFLOW_BASE_URL" in
    let baseURL :=
      if negb (types.String_IsNull (BaseURL data))
      then types.ValueString (BaseURL data) else baseURL in
    let diags :=
      if baseURL =? ""
      then diag.AddError diags "Configuration Error"
             "base_url must be set in provider block or REPOFLOW_BASE_URL env var"
      else diags in
    let apiKey := Getenv "REPOFLOW_API_KEY" in
    let apiKey :=
      if negb (types.String_IsNull (ApiKey data))
      then types.ValueString (ApiKey data) else apiKey in
    let diags :=
      if apiKey =? ""
      then diag.AddError diags "Configuration Error"
             "api_key must be set in provider block or REPOFLOW_API_KEY env var"
      else diags in
    let client := mkNewClient baseURL apiKey in
    mkConfigureResponse diags (Some client) (Some client).

End provider.

(** ** A remote service for the workspace handlers: every workspace has
    the id ["ws-1"]; calls fail as in [Fake]. *)

Module FakeWorkspace.

Definition CreateWorkspace (opts : workspace.WorkspaceOptions) :=
  Fake.answer (inr (repoflow.mkWorkspace "ws-1" (workspace.o_Name opts))).

Definition DeleteWorkspace (name : string) :=
  Fake.answer (inr (repoflow.mkWorkspace "ws-1" name)).

Definition client : workspace.Client Fake.World :=
  workspace.mkClient CreateWorkspace Fake.GetWorkspace DeleteWorkspace.

(** The declared workspace of the examples. *)
Definition example : workspace.WorkspaceResourceModel :=
  workspace.mkModel (types.StringValue "example") types.StringUnknown.

End FakeWorkspace.

(** ** Reading an import id *)

(** The number of slashes of a string. *)
Fixpoint count_slash (s : string) : nat :=
  match s with
  | EmptyString => 0
  | String c rest => (if Ascii.eqb c slash then 1 else 0) + count_slash rest
  end.

(** An import id of the form [workspace/repository], both parts non-empty
    and without a slash. *)
Definition wellFormedID (ID : string) : Prop :=
  exists workspace repository,
    ID = workspace ++ "/" ++ repository
    /\ workspace <> "" /\ repository <> ""
    /\ count_slash workspace = 0 /\ count_slash repository = 0.

(** ** Reading the trace of client calls *)

(** The workspace a variant-specific create call is made on. *)
Definition createWorkspace (c : repoflow.Call) : option string :=
  match c with
  | repoflow.CallCreateLocalRepository workspace _
  | repoflow.CallCreateRemoteRepository workspace _
  | repoflow.CallCreateVirtualRepository workspace _ => Some workspace
  | _ => None
  end.

(** What the client answers to a variant-specific create call. *)
Definition createAnswer {W} (client : repoflow.Client W) (c : repoflow.Call)
           (w : W) : option (repoflow.Result repoflow.Repository * W) :=
  match c with
  | repoflow.CallCreateLocalRepository workspace opts =>
      Some (repoflow.CreateLocalRepository client workspace opts w)
  | repoflow.CallCreateRemoteRepository workspace opts =>
      Some (repoflow.CreateRemoteRepository client workspace opts w)
  | repoflow.CallCreateVirtualRepository workspace opts =>
      Some (repoflow.CreateVirtualRepository client workspace opts w)
  | _ => None
  end.

Definition isCreate (c : repoflow.Call) : bool :=
  match createWorkspace c with Some _ => true | None => false end.

(** * Properties *)

Unset Implicit Arguments.

(** ** Diagnostics *)

Lemma HasError_app (ds ds' : diag.Diagnostics) :
  diag.HasError (ds ++ ds')%list = diag.HasError ds || diag.HasError ds'.
Proof. unfold diag.HasError. apply existsb_app. Qed.

Lemma Equal_Severity (a b : diag.Diagnostic) :
  diag.Equal a b = true -> diag.Severity_ a = diag.Severity_ b.
Proof.
  unfold diag.Equal. intros H.
  apply andb_true_iff in H. destruct H as [H _].
  apply andb_true_iff in H. destruct H as [H _].
  destruct (diag.Severity_ a), (diag.Severity_ b); simpl in H; congruence.
Qed.

(** Adding an error leaves the diagnostics with an error, also when the
    same diagnostic was there already and is skipped. *)
Lemma HasError_AddError (ds : diag.Diagnostics) (summary detail : string) :
  diag.HasError (diag.AddError ds summary detail) = true.
Proof.
  unfold diag.AddError. simpl.
  destruct (diag.Contains ds (diag.NewErrorDiagnostic summary detail)) eqn:C.
  - unfold diag.Contains in C. apply existsb_exists in C.
    destruct C as [d [Hin Heq]].
    apply Equal_Severity in Heq. simpl in Heq.
    unfold diag.HasError. apply existsb_exists.
    exists d. split; [assumption|]. now rewrite <- Heq.
  - rewrite HasError_app. simpl. apply orb_true_r.
Qed.

(** Appending keeps what was there. *)
Lemma In_Append (ds new : diag.Diagnostics) (d : diag.Diagnostic) :
  In d ds -> In d (diag.Append ds new).
Proof.
  revert ds. induction new as [|n new IH]; intros ds Hin; simpl.
  - assumption.
  - apply IH. destruct (diag.Contains ds n); [assumption|].
    apply in_or_app. now left.
Qed.

(** ** Integers *)

Lemma wrap_small (z : Z) :
  (- 2 ^ 63 <= z < 2 ^ 63)%Z -> wrap 64 z = z.
Proof.
  intros H. unfold wrap.
  change (2 ^ (64 - 1))%Z with (2 ^ 63)%Z.
  rewrite Z.mod_small; lia.
Qed.

(** ** The cache lifetimes *)

Lemma Int64ToPtr_None (v : types.Int64) :
  factory.Int64ToPtr v = None <-> v = types.Int64Null \/ v = types.Int64Unknown.
Proof.
  destruct v; unfold factory.Int64ToPtr; simpl; split; intros H;
    try tauto; try discriminate; destruct H; discriminate.
Qed.

Lemma Int64ToPtr_value (z : Z) :
  (- 2 ^ 63 <= z < 2 ^ 63)%Z ->
  factory.Int64ToPtr (types.Int64Value z) = Some z.
Proof.
  intros H. unfold factory.Int64ToPtr. simpl.
  unfold int_bits. now rewrite wrap_small.
Qed.

Lemma IntPtrToInt64Ptr_value (z : Z) :
  (- 2 ^ 63 <= z < 2 ^ 63)%Z ->
  types.Int64PointerValue (factory.IntPtrToInt64Ptr (Some z)) = types.Int64Value z.
Proof. intros H. simpl. now rewrite wrap_small. Qed.

(** The cache lifetimes that [mapResponseToModel] writes. *)
Lemma mapResponseToModel_cache data rp workspaceId :
  exists m ds,
    mapResponseToModel data (Some rp) workspaceId = Some (m, ds)
    /\ FileCacheTimeTillRevalidation m =
       types.Int64PointerValue
         (factory.IntPtrToInt64Ptr (repoflow.FileCacheTimeTillRevalidation rp))
    /\ MetadataCacheTimeTillRevalidation m =
       types.Int64PointerValue
         (factory.IntPtrToInt64Ptr (repoflow.MetadataCacheTimeTillRevalidation rp)).
Proof. do 2 eexists. simpl. repeat split. Qed.

(** ** Running a handler *)

Ltac unfold_handlers :=
  unfold invoke, Create, Create_switch, Read, Update, Delete, ImportState,
    mapResponse, GetWorkspace, CreateLocalRepository, CreateRemoteRepository,
    CreateVirtualRepository, GetRepository, DeleteRepository,
    Debug, Trace, log, call, bind, ret, Get, Append, HasError, AddError,
    StateSet, return_, panic, deref, results.

Ltac run := unfold_handlers; cbn.

(** ** Read and Update *)

(** C8. Whatever the gateway answers, [Read] returns (it does not panic)
    and the response state is the state the invocation started from: the
    record fetched and mapped into the working model is not written. *)
Theorem Read_keeps_state (W : Type) (client : repoflow.Client W) (w : W)
        (state : RepositoryResourceModel)
        (state0 : option RepositoryResourceModel) :
  exists e, invoke (Read client state) w state0 = Returned e
            /\ State e = state0.
Proof.
  run.
  destruct (repoflow.GetRepository client _ _ w) as [[err|rp] w'];
    cbn; eexists; split; reflexivity.
Qed.

(** C9. [Update] makes no client call, leaves the remote world as it is
    and sets the response state to the plan it was given. *)
Theorem Update_persists_plan (W : Type) (w : W)
        (plan : RepositoryResourceModel)
        (state0 : option RepositoryResourceModel) :
  exists e, invoke (Update plan) w state0 = Returned e
            /\ calls e = []
            /\ world e = w
            /\ State e = Some plan.
Proof. run. eexists. repeat split. Qed.

(** ** The cache lifetimes, both ways *)

(** The options [Create] sends for a remote repository. *)
Lemma Create_remote_calls (W : Type) (client : repoflow.Client W) (w : W)
      (plan : RepositoryResourceModel)
      (state0 : option RepositoryResourceModel) :
  RepositoryType plan = types.StringValue "remote" ->
  types.String_IsNull (RemoteRepositoryUrl plan) = false ->
  calls (final (invoke (Create client plan) w state0)) =
  [repoflow.CallGetWorkspace (types.ValueString (WorkspaceId plan));
   repoflow.CallCreateRemoteRepository
     (types.ValueString (WorkspaceId plan))
     (repoflow.mkRepositoryRemoteOptions
        (types.ValueString (Name plan))
        (types.ValueString (PackageType plan))
        (types.ValueString (RemoteRepositoryUrl plan))
        (types.ValueString (RemoteRepositoryUsername plan))
        (types.ValueString (RemoteRepositoryPassword plan))
        (types.ValueBool (RemoteCacheEnabled plan))
        (factory.Int64ToPtr (FileCacheTimeTillRevalidation plan))
        (factory.Int64ToPtr (MetadataCacheTimeTillRevalidation plan)))].
Proof.
  intros Ht Hurl. run. rewrite Ht, Hurl. cbn.
  destruct (repoflow.GetWorkspace client _ w) as [[err|ws] w1]; cbn;
    destruct (repoflow.CreateRemoteRepository client _ _ w1) as [[err'|rp] w2];
    reflexivity.
Qed.

(** C10. A null cache lifetime stays null in both directions, and a known
    one (0 among them) stays the same number.  Declared to gateway: the
    options of the remote create call hold nil for a null attribute and the
    number for a known one.  Gateway to declared: [mapResponseToModel]
    writes null for a nil field and the number for a set one. *)
Theorem cache_ttl_null_round_trip
        (W : Type) (client : repoflow.Client W) (w : W)
        (plan : RepositoryResourceModel)
        (state0 : option RepositoryResourceModel)
        (data : RepositoryResourceModel) (rp : repoflow.Repository)
        (workspaceId : string) :
  RepositoryType plan = types.StringValue "remote" ->
  types.String_IsNull (RemoteRepositoryUrl plan) = false ->
  (exists opts,
      In (repoflow.CallCreateRemoteRepository
            (types.ValueString (WorkspaceId plan)) opts)
         (calls (final (invoke (Create client plan) w state0)))
      /\ (FileCacheTimeTillRevalidation plan = types.Int64Null ->
          repoflow.ro_FileCacheTimeTillRevalidation opts = None)
      /\ (MetadataCacheTimeTillRevalidation plan = types.Int64Null ->
          repoflow.ro_MetadataCacheTimeTillRevalidation opts = None)
      /\ (forall z, (- 2 ^ 63 <= z < 2 ^ 63)%Z ->
          FileCacheTimeTillRevalidation plan = types.Int64Value z ->
          repoflow.ro_FileCacheTimeTillRevalidation opts = Some z)
      /\ (forall z, (- 2 ^ 63 <= z < 2 ^ 63)%Z ->
          MetadataCacheTimeTillRevalidation plan = types.Int64Value z ->
          repoflow.ro_MetadataCacheTimeTillRevalidation opts = Some z))
  /\
  (exists m ds,
      mapResponseToModel data (Some rp) workspaceId = Some (m, ds)
      /\ (repoflow.FileCacheTimeTillRevalidation rp = None ->
          FileCacheTimeTillRevalidation m = types.Int64Null)
      /\ (repoflow.MetadataCacheTimeTillRevalidation rp = None ->
          MetadataCacheTimeTillRevalidation m = types.Int64Null)
      /\ (forall z, (- 2 ^ 63 <= z < 2 ^ 63)%Z ->
          repoflow.FileCacheTimeTillRevalidation rp = Some z ->
          FileCacheTimeTillRevalidation m = types.Int64Value z)
      /\ (forall z, (- 2 ^ 63 <= z < 2 ^ 63)%Z ->
          repoflow.MetadataCacheTimeTillRevalidation rp = Some z ->
          MetadataCacheTimeTillRevalidation m = types.Int64Value z)).
Proof.
  intros Ht Hurl. split.
  - eexists. split.
    + rewrite (Create_remote_calls W client w plan state0 Ht Hurl).
      right. left. reflexivity.
    + cbn [repoflow.ro_FileCacheTimeTillRevalidation
             repoflow.ro_MetadataCacheTimeTillRevalidation].
      repeat split.
      * intros ->. reflexivity.
      * intros ->. reflexivity.
      * intros z Hz ->. now apply Int64ToPtr_value.
      * intros z Hz ->. now apply Int64ToPtr_value.
  - destruct (mapResponseToModel_cache data rp workspaceId)
      as (m & ds & Hm & Hf & Hmeta).
    exists m, ds. split; [assumption|]. rewrite Hf, Hmeta.
    repeat split.
    + intros ->. reflexivity.
    + intros ->. reflexivity.
    + intros z Hz ->. now apply IntPtrToInt64Ptr_value.
    + intros z Hz ->. now apply IntPtrToInt64Ptr_value.
Qed.

(** The remote repository of the examples, declared with null lifetimes,
    and a fetched record without lifetimes. *)
Lemma cache_ttl_null_round_trip_witness :
  (exists opts,
      In (repoflow.CallCreateRemoteRepository "example" opts)
         (calls (final (invoke (Create Fake.client (Fake.remote "pw")) 0 None)))
      /\ repoflow.ro_FileCacheTimeTillRevalidation opts = None
      /\ repoflow.ro_MetadataCacheTimeTillRevalidation opts = None)
  /\
  (exists m ds,
      mapResponseToModel zeroModel
        (Some (Fake.blank "r1" "local-example" "local" "npm")) "ws-1"
      = Some (m, ds)
      /\ FileCacheTimeTillRevalidation m = types.Int64Null
      /\ MetadataCacheTimeTillRevalidation m = types.Int64Null).
Proof.
  destruct (cache_ttl_null_round_trip
              Fake.World Fake.client 0 (Fake.remote "pw") None zeroModel
              (Fake.blank "r1" "local-example" "local" "npm") "ws-1"
              eq_refl eq_refl)
    as [(opts & Hin & Hf & Hm & _) (m & ds & Heq & Hf' & Hm' & _)].
  split.
  - exists opts. repeat split; [exact Hin | exact (Hf eq_refl) | exact (Hm eq_refl)].
  - exists m, ds. repeat split;
      [exact Heq | exact (Hf' eq_refl) | exact (Hm' eq_refl)].
Defined.

(** ** Create of a virtual repository *)

Lemma elementsAsStrings_known (ids : list string) :
  elementsAsStrings (map types.StringValue ids) = Some ids.
Proof.
  induction ids as [|i ids IH]; simpl; [reflexivity|]. now rewrite IH.
Qed.

(** C1, as the code has it.  [Create] holds no membership check on
    [upload_local_repository_id].  For a virtual repository with known
    child ids and a resolved workspace, whether the upload target is among
    the child ids or not, [Create] calls [CreateVirtualRepository] with the
    child ids and the upload target as declared, and the only diagnostic
    it can end with is the client error of that call. *)
Theorem Create_virtual_forwards_upload_target
        (W : Type) (client : repoflow.Client W) (w w1 : W)
        (plan : RepositoryResourceModel)
        (state0 : option RepositoryResourceModel)
        (ids : list string) (ws : repoflow.Workspace) :
  RepositoryType plan = types.StringValue "virtual" ->
  ChildRepositoryIds plan = types.ListValueFrom ids ->
  repoflow.GetWorkspace client (types.ValueString (WorkspaceId plan)) w
  = (inr ws, w1) ->
  calls (final (invoke (Create client plan) w state0)) =
  [repoflow.CallGetWorkspace (types.ValueString (WorkspaceId plan));
   repoflow.CallCreateVirtualRepository
     (types.ValueString (WorkspaceId plan))
     (repoflow.mkRepositoryVirtualOptions
        (types.ValueString (Name plan))
        (types.ValueString (PackageType plan))
        ids
        (types.ValueString (UploadLocalRepositoryId plan)))]
  /\ (forall d,
         In d (Diagnostics (final (invoke (Create client plan) w state0))) ->
         diag.Summary d = "Client Error").
Proof.
  intros Ht Hc Hws. run. rewrite Ht, Hc, Hws. cbn.
  unfold ElementsAs, types.ListValueFrom.
  rewrite elementsAsStrings_known. cbn.
  destruct (repoflow.CreateVirtualRepository client _ _ w1) as [[err|rp] w2];
    cbn; (split; [reflexivity|]).
  - intros d [<-|[]]. reflexivity.
  - intros d [].
Qed.

(** The upload target ["x"] with the children ["y"] and ["z"]. *)
Lemma Create_virtual_forwards_upload_target_witness :
  calls (final (invoke
                  (Create Fake.client
                          (Fake.virtual (types.ListValueFrom ["y"; "z"])
                                        (types.StringValue "x")))
                  0 None)) =
  [repoflow.CallGetWorkspace "example";
   repoflow.CallCreateVirtualRepository "example"
     (repoflow.mkRepositoryVirtualOptions
        "virtual-example" "npm" ["y"; "z"] "x")].
Proof.
  exact (proj1 (Create_virtual_forwards_upload_target
                  Fake.World Fake.client 0 0
                  (Fake.virtual (types.ListValueFrom ["y"; "z"])
                                (types.StringValue "x"))
                  None ["y"; "z"] (repoflow.mkWorkspace "ws-1" "example")
                  eq_refl eq_refl eq_refl)).
Defined.

(** C1 fails as stated: the upload target ["x"] is not among the children
    ["y"] and ["z"], yet [Create] ends without a diagnostic, has made the
    virtual create call and has written the state. *)
Lemma Create_virtual_foreign_upload_target_accepted :
  let plan := Fake.virtual (types.ListValueFrom ["y"; "z"])
                           (types.StringValue "x") in
  let e := final (invoke (Create Fake.client plan) 0 None) in
  ~ In "x" ["y"; "z"]
  /\ Diagnostics e = []
  /\ In (repoflow.CallCreateVirtualRepository "example"
           (repoflow.mkRepositoryVirtualOptions
              "virtual-example" "npm" ["y"; "z"] "x"))
        (calls e)
  /\ option_map UploadLocalRepositoryId (State e)
     = Some (types.StringValue "x").
Proof.
  cbn. repeat split.
  - intros [H|[H|[]]]; discriminate.
  - right. left. reflexivity.
Qed.

(** C2, as the code has it.  With the type virtual, [Create] returns
    with an error, makes no create call (the workspace lookup, which comes
    first, is its only client call) and does not write the response state,
    both when the child ids are null in the plan and when they are unknown
    in the plan, which is what child ids left out of the configuration
    are, the attribute being optional and computed.  Null child ids get
    the error "Missing parameter"; unknown child ids get the error of the
    conversion, "Value Conversion Error", and no "Missing parameter". *)
Theorem Create_virtual_children_null_or_unknown
        (W : Type) (client : repoflow.Client W) (w : W)
        (plan : RepositoryResourceModel)
        (state0 : option RepositoryResourceModel) :
  RepositoryType plan = types.StringValue "virtual" ->
  ChildRepositoryIds plan = types.ListNull
  \/ ChildRepositoryIds plan = types.ListUnknown ->
  exists e,
    invoke (Create client plan) w state0 = Returned e
    /\ calls e =
       [repoflow.CallGetWorkspace (types.ValueString (WorkspaceId plan))]
    /\ State e = state0
    /\ diag.HasError (Diagnostics e) = true
    /\ (ChildRepositoryIds plan = types.ListNull ->
        In (diag.NewErrorDiagnostic "Missing parameter"
              "`child_repository_ids` is required for virtual repository type.")
           (Diagnostics e))
    /\ (ChildRepositoryIds plan = types.ListUnknown ->
        (exists d, In d (Diagnostics e)
                   /\ diag.Severity_ d = diag.SeverityError
                   /\ diag.Summary d = "Value Conversion Error")
        /\ (forall d, In d (Diagnostics e) ->
                      diag.Summary d <> "Missing parameter")).
Proof.
  intros Ht [Hc|Hc]; run; rewrite Ht, Hc; cbn;
    destruct (repoflow.GetWorkspace client _ w) as [[err|ws] w1]; cbn;
    eexists; (split; [reflexivity|]); cbn;
    (split; [reflexivity|]); (split; [reflexivity|]);
    (split; [reflexivity|]); split; intros H; try discriminate H; auto.
  - split.
    + eexists. split; [right; left; reflexivity|]. split; reflexivity.
    + intros d [<-|[<-|[]]]; discriminate.
  - split.
    + eexists. split; [left; reflexivity|]. split; reflexivity.
    + intros d [<-|[]]; discriminate.
Qed.

(** The virtual repository of the examples, once with null child ids and
    once with its child ids left out, so unknown in the plan. *)
Lemma Create_virtual_children_null_or_unknown_witness :
  (exists e,
      invoke (Create Fake.client
                     (Fake.virtual types.ListNull types.StringNull))
             0 None = Returned e
      /\ calls e = [repoflow.CallGetWorkspace "example"]
      /\ State e = None
      /\ In (diag.NewErrorDiagnostic "Missing parameter"
               "`child_repository_ids` is required for virtual repository type.")
            (Diagnostics e))
  /\
  (exists e,
      invoke (Create Fake.client
                     (Fake.virtual types.ListUnknown types.StringUnknown))
             0 None = Returned e
      /\ calls e = [repoflow.CallGetWorkspace "example"]
      /\ State e = None
      /\ diag.HasError (Diagnostics e) = true
      /\ (forall d, In d (Diagnostics e) ->
                    diag.Summary d <> "Missing parameter")).
Proof.
  split.
  - destruct (Create_virtual_children_null_or_unknown
                Fake.World Fake.client 0
                (Fake.virtual types.ListNull types.StringNull) None
                eq_refl (or_introl eq_refl))
      as (e & He & Hc & Hs & _ & Hnull & _).
    exists e. repeat split; [exact He | exact Hc | exact Hs |].
    exact (Hnull eq_refl).
  - destruct (Create_virtual_children_null_or_unknown
                Fake.World Fake.client 0
                (Fake.virtual types.ListUnknown types.StringUnknown) None
                eq_refl (or_intror eq_refl))
      as (e & He & Hc & Hs & Herr & _ & Hunk).
    exists e. repeat split; [exact He | exact Hc | exact Hs | exact Herr |].
    exact (proj2 (Hunk eq_refl)).
Defined.

(** C2 fails as stated, three times: with null child ids the workspace
    lookup is made all the same; with the child ids left out, so unknown
    in the plan, the lookup is made and the error is the one of the
    conversion, not "Missing parameter"; and with an empty list of child
    ids nothing is rejected and the virtual create call is made. *)
Lemma Create_virtual_missing_children_calls :
  calls (final (invoke
                  (Create Fake.client
                          (Fake.virtual types.ListNull types.StringNull))
                  0 None))
  = [repoflow.CallGetWorkspace "example"]
  /\ (let e := final (invoke
                        (Create Fake.client
                                (Fake.virtual types.ListUnknown
                                              types.StringUnknown))
                        0 None) in
      calls e = [repoflow.CallGetWorkspace "example"]
      /\ map diag.Summary (Diagnostics e) = ["Value Conversion Error"])
  /\ (let e := final (invoke
                        (Create Fake.client
                                (Fake.virtual (types.ListValue [])
                                              types.StringNull))
                        0 None) in
      Diagnostics e = []
      /\ calls e =
         [repoflow.CallGetWorkspace "example";
          repoflow.CallCreateVirtualRepository "example"
            (repoflow.mkRepositoryVirtualOptions
               "virtual-example" "npm" [] "")]).
Proof. cbn. repeat split. Qed.

(** ** Create with a repository type the switch does not know *)

Lemma eqb_not_In (s a : string) (l : list string) :
  ~ In s (a :: l) -> (s =? a) = false /\ ~ In s l.
Proof.
  intros H. split.
  - apply String.eqb_neq. intros ->. apply H. now left.
  - intros Hin. apply H. now right.
Qed.

(** C5, as the code has it.  A known repository type outside local,
    remote and virtual is refused by the validator the schema declares for
    ["repository_type"].  [Create] has no error of its own for it: run on
    such a plan it makes no create call (the workspace lookup is its only
    client call), raises no diagnostic besides the client error of that
    lookup, and does not write the response state. *)
Theorem Create_unrecognized_type
        (W : Type) (client : repoflow.Client W) (w : W)
        (plan : RepositoryResourceModel)
        (state0 : option RepositoryResourceModel) (s : string) :
  RepositoryType plan = types.StringValue s ->
  ~ In s ["local"; "remote"; "virtual"] ->
  repository_type_validator (RepositoryType plan) = false
  /\ calls (final (invoke (Create client plan) w state0)) =
     [repoflow.CallGetWorkspace (types.ValueString (WorkspaceId plan))]
  /\ (forall d,
         In d (Diagnostics (final (invoke (Create client plan) w state0))) ->
         diag.Summary d = "Client Error")
  /\ State (final (invoke (Create client plan) w state0)) = state0.
Proof.
  intros Ht Hs.
  apply eqb_not_In in Hs. destruct Hs as [Hl Hs].
  apply eqb_not_In in Hs. destruct Hs as [Hr Hs].
  apply eqb_not_In in Hs. destruct Hs as [Hv _].
  split.
  - rewrite Ht. unfold repository_type_validator, OneOf. simpl.
    now rewrite Hl, Hr, Hv.
  - run. rewrite Ht. cbn. rewrite Hl, Hr, Hv.
    destruct (repoflow.GetWorkspace client _ w) as [[err|ws] w1]; cbn;
      repeat split; try tauto.
    intros d [<-|[]]. reflexivity.
Qed.

Lemma Create_unrecognized_type_witness :
  repository_type_validator (types.StringValue "docker") = false
  /\ calls (final (invoke (Create Fake.client
                                  (Fake.plan "docker-example" "docker"))
                          0 None))
     = [repoflow.CallGetWorkspace "example"].
Proof.
  destruct (Create_unrecognized_type
              Fake.World Fake.client 0
              (Fake.plan "docker-example" "docker") None "docker" eq_refl)
    as (Hv & Hc & _).
  - intros [H|[H|[H|[]]]]; discriminate.
  - split; [exact Hv | exact Hc].
Defined.

(** C5 fails as stated: on the repository type ["docker"] the invocation
    does not end with an error result; it panics, with no diagnostic. *)
Lemma Create_unrecognized_type_panics :
  exists e,
    invoke (Create Fake.client (Fake.plan "docker-example" "docker")) 0 None
    = Panicked e
    /\ Diagnostics e = [].
Proof. eexists. cbn. split; reflexivity. Qed.

(** ** Create: the workspace of the create call and the composite id *)

(** C6, as the code has it.  When the workspace lookup answers [ws] and
    [Create] returns without an error, the trace is the lookup followed by
    one variant-specific create call; that call is made on the declared
    workspace reference, as written in the plan, and the id written to
    the state is the id of [ws], a slash, and the id of the record the
    create call returned. *)
Theorem Create_reference_and_composite_id
        (W : Type) (client : repoflow.Client W) (w w1 : W)
        (plan : RepositoryResourceModel)
        (state0 : option RepositoryResourceModel)
        (ws : repoflow.Workspace) (e : Env W) :
  repoflow.GetWorkspace client (types.ValueString (WorkspaceId plan)) w
  = (inr ws, w1) ->
  invoke (Create client plan) w state0 = Returned e ->
  diag.HasError (Diagnostics e) = false ->
  exists c rp w2 m,
    calls e =
    [repoflow.CallGetWorkspace (types.ValueString (WorkspaceId plan)); c]
    /\ createWorkspace c = Some (types.ValueString (WorkspaceId plan))
    /\ createAnswer client c w1 = Some (inr rp, w2)
    /\ State e = Some m
    /\ Id m = types.StringValue (repoflow.WsId ws ++ "/" ++ repoflow.Id rp).
Proof.
  intros Hws. run. rewrite Hws. cbn.
  destruct (types.ValueString (RepositoryType plan) =? "local"); cbn.
  { destruct (repoflow.CreateLocalRepository client _ _ w1)
      as [[err|rp] w2] eqn:Hc; cbn; intros He Herr;
      inversion He; subst e; cbn in *; try discriminate.
    eexists _, rp, w2, _. split; [reflexivity|].
      cbn. rewrite Hc. repeat split. }
  destruct (types.ValueString (RepositoryType plan) =? "remote"); cbn.
  { destruct (types.String_IsNull (RemoteRepositoryUrl plan)); cbn.
    { intros He Herr. inversion He; subst e. discriminate. }
    destruct (repoflow.CreateRemoteRepository client _ _ w1)
      as [[err|rp] w2] eqn:Hc; cbn; intros He Herr;
      inversion He; subst e; cbn in *; try discriminate.
    eexists _, rp, w2, _. split; [reflexivity|].
      cbn. rewrite Hc. repeat split. }
  destruct (types.ValueString (RepositoryType plan) =? "virtual"); cbn.
  { destruct (types.List_IsNull (ChildRepositoryIds plan)); cbn.
    { intros He Herr. inversion He; subst e. discriminate. }
    destruct (ElementsAs (ChildRepositoryIds plan)) as [childIds diags]; cbn.
    destruct (existsb _ (diag.Append [] diags)) eqn:Hd; cbn.
    { intros He Herr. inversion He; subst e.
      unfold diag.HasError in Herr. cbn in Herr. congruence. }
    destruct (repoflow.CreateVirtualRepository client _ _ w1)
      as [[err|rp] w2] eqn:Hc; cbn; intros He Herr;
      inversion He; subst e; cbn in *.
    - discriminate
        (eq_trans (eq_sym Herr)
           (HasError_AddError (diag.Append [] diags) "Client Error"
              ("Unable to create repository, got error: " ++ err))).
    - eexists _, rp, w2, _. split; [reflexivity|].
      cbn. rewrite Hc. repeat split. }
  intros He. discriminate.
Qed.

Lemma Create_reference_and_composite_id_witness :
  exists c rp w2 m,
    calls (final (invoke (Create Fake.client Fake.local) 0 None)) =
    [repoflow.CallGetWorkspace "example"; c]
    /\ createWorkspace c = Some "example"
    /\ createAnswer Fake.client c 0 = Some (inr rp, w2)
    /\ State (final (invoke (Create Fake.client Fake.local) 0 None)) = Some m
    /\ Id m = types.StringValue ("ws-1" ++ "/" ++ repoflow.Id rp).
Proof.
  exact (Create_reference_and_composite_id
           Fake.World Fake.client 0 0 Fake.local None
           (repoflow.mkWorkspace "ws-1" "example")
           (final (invoke (Create Fake.client Fake.local) 0 None))
           eq_refl eq_refl eq_refl).
Defined.

(** C6 fails as stated: the workspace is declared by its name ["example"],
    the lookup resolves it to the id ["ws-1"], and the create call is made
    on ["example"]. *)
Lemma Create_local_called_on_reference :
  fst (repoflow.GetWorkspace Fake.client "example" 0)
  = inr (repoflow.mkWorkspace "ws-1" "example")
  /\ calls (final (invoke (Create Fake.client Fake.local) 0 None)) =
     [repoflow.CallGetWorkspace "example";
      repoflow.CallCreateLocalRepository "example"
        (repoflow.mkRepositoryOptions "local-example" "npm")]
  /\ "example" <> "ws-1".
Proof. cbn. repeat split. discriminate. Qed.

(** ** A failed workspace lookup *)

(** After a failed lookup [Create] of a local repository goes on to the
    create call, with an empty workspace id in hand. *)
Lemma Create_local_after_failed_lookup
      (W : Type) (client : repoflow.Client W) (w w1 : W)
      (plan : RepositoryResourceModel)
      (state0 : option RepositoryResourceModel) (err : string) :
  RepositoryType plan = types.StringValue "local" ->
  repoflow.GetWorkspace client (types.ValueString (WorkspaceId plan)) w
  = (inl err, w1) ->
  calls (final (invoke (Create client plan) w state0)) =
  [repoflow.CallGetWorkspace (types.ValueString (WorkspaceId plan));
   repoflow.CallCreateLocalRepository
     (types.ValueString (WorkspaceId plan))
     (repoflow.mkRepositoryOptions
        (types.ValueString (Name plan))
        (types.ValueString (PackageType plan)))].
Proof.
  intros Ht Hws. run. rewrite Ht, Hws. cbn.
  destruct (repoflow.CreateLocalRepository client _ _ w1) as [[err'|rp] w2];
    reflexivity.
Qed.

(** After a failed lookup [ImportState] goes on to fetch the repository,
    on the empty workspace id. *)
Lemma ImportState_after_failed_lookup
      (W : Type) (client : repoflow.Client W) (w w1 : W)
      (state0 : option RepositoryResourceModel)
      (workspace repository err : string) :
  Split (workspace ++ "/" ++ repository) = [workspace; repository] ->
  workspace <> "" -> repository <> "" ->
  repoflow.GetWorkspace client workspace w = (inl err, w1) ->
  calls (final (invoke (ImportState client (workspace ++ "/" ++ repository))
                       w state0)) =
  [repoflow.CallGetWorkspace workspace;
   repoflow.CallGetRepository "" repository].
Proof.
  intros Hs Hw Hr Hws. unfold_handlers. rewrite Hs.
  apply String.eqb_neq in Hw, Hr. rewrite Hw, Hr. cbn. rewrite Hws. cbn.
  destruct (repoflow.GetRepository client _ _ w1) as [[err'|rp] w2];
    reflexivity.
Qed.

(** C3, on the code.  The first call of the run fails, so the workspace
    lookup fails.  [Create] records the error and still makes the create
    call, and it writes the state, with the composite id ["/r1"];
    [ImportState] records the error and still makes the get call, on the
    empty workspace id. *)
Theorem failed_workspace_lookup_does_not_stop :
  (let e := final (invoke (Create Fake.client Fake.local) 1 None) in
   calls e =
   [repoflow.CallGetWorkspace "example";
    repoflow.CallCreateLocalRepository "example"
      (repoflow.mkRepositoryOptions "local-example" "npm")]
   /\ diag.HasError (Diagnostics e) = true
   /\ option_map Id (State e) = Some (types.StringValue "/r1"))
  /\
  (let e := final (invoke (ImportState Fake.client "example/r1") 1 None) in
   calls e =
   [repoflow.CallGetWorkspace "example";
    repoflow.CallGetRepository "" "r1"]
   /\ diag.HasError (Diagnostics e) = true).
Proof. cbn. repeat split. Qed.

(** ** The defaulting of the two type attributes *)

(** What [mapResponseToModel] writes into the two type attributes: both
    are guarded by the repository type of the record. *)
Lemma mapResponseToModel_types data rp workspaceId :
  exists m ds,
    mapResponseToModel data (Some rp) workspaceId = Some (m, ds)
    /\ RepositoryType m =
       (if repoflow.RepositoryType rp =? ""
        then RepositoryType data
        else types.StringValue (repoflow.RepositoryType rp))
    /\ PackageType m =
       (if repoflow.RepositoryType rp =? ""
        then PackageType data
        else types.StringValue (repoflow.PackageType rp)).
Proof.
  do 2 eexists. split; [reflexivity|]. cbn.
  destruct (repoflow.RepositoryType rp =? ""); split; reflexivity.
Qed.

(** The repository type is left as it was when the record has none. *)
Lemma mapResponseToModel_keeps_RepositoryType data rp workspaceId :
  repoflow.RepositoryType rp = "" ->
  option_map (fun r => RepositoryType (fst r))
             (mapResponseToModel data (Some rp) workspaceId)
  = Some (RepositoryType data).
Proof. intros H. cbn. now rewrite H. Qed.

(** C4, on the code.  The record has the repository type ["local"] and an
    empty package type; the model holds the package type ["npm"].  After
    the mapping the package type of the model is the empty string. *)
Theorem mapResponseToModel_writes_empty_packageType :
  let rp := Fake.blank "r1" "local-example" "local" "" in
  repoflow.PackageType rp = ""
  /\ PackageType Fake.local = types.StringValue "npm"
  /\ option_map (fun r => PackageType (fst r))
                (mapResponseToModel Fake.local (Some rp) "ws-1")
     = Some (types.StringValue "").
Proof. cbn. repeat split. Qed.

(** ** The password in the log *)

(** The debug line of a remote create holds the options of the call, the
    password among them. *)
Lemma Create_remote_logs_options
      (W : Type) (client : repoflow.Client W) (w : W)
      (plan : RepositoryResourceModel)
      (state0 : option RepositoryResourceModel) :
  RepositoryType plan = types.StringValue "remote" ->
  types.String_IsNull (RemoteRepositoryUrl plan) = false ->
  exists opts,
    In (tflog.mkEntry tflog.LevelDebug "create repository with option"
          [("opts", tflog.FRepositoryRemoteOptions opts)])
       (logs (final (invoke (Create client plan) w state0)))
    /\ repoflow.ro_RemoteRepositoryPassword opts
       = types.ValueString (RemoteRepositoryPassword plan).
Proof.
  intros Ht Hurl. eexists. split.
  - run. rewrite Ht, Hurl. cbn.
    destruct (repoflow.GetWorkspace client _ w) as [[err|ws] w1]; cbn;
      destruct (repoflow.CreateRemoteRepository client _ _ w1)
        as [[err'|rp] w2]; cbn; left; reflexivity.
  - reflexivity.
Qed.

(** C7, on the code.  Two runs of [Create] on the remote repository of the
    examples that differ in the password only: the first log holds the
    password ["hunter2"] in the options of its debug line, and the two
    logs differ. *)
Theorem Create_remote_logs_password :
  let run password :=
    logs (final (invoke (Create Fake.client (Fake.remote password)) 0 None)) in
  In (tflog.mkEntry tflog.LevelDebug "create repository with option"
        [("opts",
          tflog.FRepositoryRemoteOptions
            (repoflow.mkRepositoryRemoteOptions
               "remote-example" "npm" "https://registry.npmjs.org" "ci"
               "hunter2" false None None))])
     (run "hunter2")
  /\ run "hunter2" <> run "swordfish".
Proof.
  cbn. split.
  - left. reflexivity.
  - intros H. discriminate H.
Qed.

(** ** Import ids *)

Lemma Split_not_nil (s : string) : Split s <> [].
Proof.
  destruct s as [|c r]; simpl; [discriminate|].
  destruct (Ascii.eqb c slash); [discriminate|].
  destruct (Split r); discriminate.
Qed.

(** Joining the parts of a split gives the string back, and no part has a
    slash. *)
Lemma Split_Join (s : string) :
  Join (Split s) "/" = s
  /\ Forall (fun part => count_slash part = 0) (Split s).
Proof.
  unfold Join. induction s as [|c r [IHj IHf]]; simpl.
  - split; [reflexivity|]. repeat constructor.
  - destruct (Ascii.eqb c slash) eqn:Hc.
    + apply Ascii.eqb_eq in Hc. subst c. split.
      * destruct (Split r) as [|h t] eqn:Hr;
          [now apply Split_not_nil in Hr|].
        simpl in *. now rewrite IHj.
      * constructor; [reflexivity | assumption].
    + destruct (Split r) as [|h t] eqn:Hr;
        [now apply Split_not_nil in Hr|].
      split.
      * destruct t as [|x t']; simpl in *; now rewrite IHj.
      * inversion IHf; subst. constructor; [|assumption].
        simpl. now rewrite Hc.
Qed.

Lemma Split_no_slash (s : string) : count_slash s = 0 -> Split s = [s].
Proof.
  induction s as [|c r IH]; simpl; [reflexivity|].
  destruct (Ascii.eqb c slash); [discriminate|].
  intros H. now rewrite (IH H).
Qed.

Lemma Split_app_slash (a b : string) :
  count_slash a = 0 -> Split (a ++ "/" ++ b) = a :: Split b.
Proof.
  induction a as [|c r IH]; simpl; [reflexivity|].
  destruct (Ascii.eqb c slash); [discriminate|].
  intros H. simpl in IH. now rewrite (IH H).
Qed.

Lemma count_slash_app (a b : string) :
  count_slash (a ++ b) = count_slash a + count_slash b.
Proof.
  induction a as [|c r IH]; simpl; [reflexivity|]. rewrite IH. lia.
Qed.

(** The well-formed ids are the ones [Split] cuts in two non-empty parts. *)
Lemma wellFormedID_Split (ID : string) :
  wellFormedID ID <->
  exists workspace repository,
    Split ID = [workspace; repository]
    /\ workspace <> "" /\ repository <> "".
Proof.
  split.
  - intros (a & b & -> & Ha & Hb & Ca & Cb).
    exists a, b. rewrite (Split_app_slash a b Ca), (Split_no_slash b Cb).
    repeat split; assumption.
  - intros (a & b & Hs & Ha & Hb).
    destruct (Split_Join ID) as [Hj Hf]. rewrite Hs in Hj, Hf.
    exists a, b. unfold Join in Hj. simpl in Hj.
    inversion Hf as [|? ? Ca Hf']; subst.
    inversion Hf' as [|? ? Cb _]; subst.
    repeat split; auto.
Qed.

(** X1. An import id that is not of the form [workspace/repository], with
    both parts non-empty and free of slashes, is refused: [ImportState]
    ends with one diagnostic, an error with the summary "Fail to import
    data", makes no client call and leaves the response state as it
    was. *)
Theorem ImportState_refuses_malformed
        (W : Type) (client : repoflow.Client W) (w : W)
        (state0 : option RepositoryResourceModel) (ID : string) :
  ~ wellFormedID ID ->
  exists e,
    invoke (ImportState client ID) w state0 = Returned e
    /\ calls e = []
    /\ world e = w
    /\ State e = state0
    /\ exists detail,
        Diagnostics e =
        [diag.NewErrorDiagnostic "Fail to import data" detail].
Proof.
  intros Hn. rewrite wellFormedID_Split in Hn.
  unfold_handlers.
  destruct (Split ID) as [|a [|b [|c l]]] eqn:Hs;
    try (eexists; repeat (split; [reflexivity|]); eexists; reflexivity).
  destruct (a =? "") eqn:Ha;
    [eexists; repeat (split; [reflexivity|]); eexists; reflexivity|].
  destruct (b =? "") eqn:Hb;
    [eexists; repeat (split; [reflexivity|]); eexists; reflexivity|].
  exfalso. apply Hn. exists a, b.
  apply String.eqb_neq in Ha, Hb. repeat split; assumption.
Qed.

Lemma not_wellFormedID_no_slash (ID : string) :
  count_slash ID = 0 -> ~ wellFormedID ID.
Proof.
  intros H (a & b & -> & _). rewrite !count_slash_app in H.
  simpl in H. lia.
Qed.

Lemma ImportState_refuses_malformed_witness :
  exists e,
    invoke (ImportState Fake.client "not-a-valid-id") 0 None = Returned e
    /\ calls e = []
    /\ State e = None.
Proof.
  destruct (ImportState_refuses_malformed
              Fake.World Fake.client 0 None "not-a-valid-id"
              (not_wellFormedID_no_slash "not-a-valid-id" eq_refl))
    as (e & He & Hc & _ & Hst & _).
  exists e. repeat split; assumption.
Defined.

(** X2. A well-formed import id makes [ImportState] look the workspace up
    by the left part and then fetch the repository by the right part, on
    the id the lookup answered.  When both calls succeed there is no
    diagnostic and the state written holds the workspace id of the lookup,
    the repository id of the fetched record and their join as id; when the
    fetch fails the state is not written and an error is reported. *)
Theorem ImportState_well_formed
        (W : Type) (client : repoflow.Client W) (w w1 w2 : W)
        (state0 : option RepositoryResourceModel)
        (workspace repository : string)
        (ws : repoflow.Workspace)
        (r : repoflow.Result repoflow.Repository) :
  workspace <> "" -> repository <> "" ->
  count_slash workspace = 0 -> count_slash repository = 0 ->
  repoflow.GetWorkspace client workspace w = (inr ws, w1) ->
  repoflow.GetRepository client (repoflow.WsId ws) repository w1 = (r, w2) ->
  exists e,
    invoke (ImportState client (workspace ++ "/" ++ repository)) w state0
    = Returned e
    /\ calls e =
       [repoflow.CallGetWorkspace workspace;
        repoflow.CallGetRepository (repoflow.WsId ws) repository]
    /\ world e = w2
    /\ match r with
       | inl err =>
           State e = state0 /\ diag.HasError (Diagnostics e) = true
       | inr rp =>
           Diagnostics e = []
           /\ exists m,
               State e = Some m
               /\ WorkspaceId m = types.StringValue (repoflow.WsId ws)
               /\ RepositoryId m = types.StringValue (repoflow.Id rp)
               /\ Id m = types.StringValue
                           (repoflow.WsId ws ++ "/" ++ repoflow.Id rp)
       end.
Proof.
  intros Ha Hb Ca Cb Hws Hrp. unfold_handlers.
  rewrite (Split_app_slash workspace repository Ca),
          (Split_no_slash repository Cb).
  apply String.eqb_neq in Ha, Hb. rewrite Ha, Hb. cbn.
  rewrite Hws. cbn. rewrite Hrp. cbn.
  destruct r as [err|rp]; cbn; eexists; repeat split.
  eexists. repeat split.
Qed.

Lemma ImportState_well_formed_witness :
  exists e,
    invoke (ImportState Fake.client ("example" ++ "/" ++ "r1")) 0 None
    = Returned e
    /\ calls e =
       [repoflow.CallGetWorkspace "example";
        repoflow.CallGetRepository "ws-1" "r1"]
    /\ option_map Id (State e) = Some (types.StringValue "ws-1/r1").
Proof.
  destruct (ImportState_well_formed
              Fake.World Fake.client 0 0 0 None "example" "r1"
              (repoflow.mkWorkspace "ws-1" "example")
              (inr (Fake.blank "r1" "local-example" "local" "npm")))
    as (e & He & Hc & _ & Hd & m & Hs & _ & _ & Hid);
    try reflexivity; try discriminate.
  exists e. repeat split; try assumption.
  rewrite Hs. simpl. now rewrite Hid.
Defined.

(** X3. The id that [mapResponseToModel] writes can be read back: when
    neither the workspace id nor the repository id holds a slash, [Split]
    cuts the composite id into exactly the workspace id and the repository
    id stored beside it. *)
Theorem composite_id_round_trip
        (data m : RepositoryResourceModel) (rp : repoflow.Repository)
        (workspaceId : string) (ds : diag.Diagnostics) :
  mapResponseToModel data (Some rp) workspaceId = Some (m, ds) ->
  count_slash workspaceId = 0 ->
  count_slash (repoflow.Id rp) = 0 ->
  Split (types.ValueString (Id m)) = [workspaceId; repoflow.Id rp]
  /\ Split (types.ValueString (Id m)) =
     [types.ValueString (WorkspaceId m); types.ValueString (RepositoryId m)].
Proof.
  intros Hm Cw Cr. inversion Hm; subst; clear Hm. cbn.
  change (String "/" (repoflow.Id rp)) with ("/" ++ repoflow.Id rp).
  rewrite (Split_app_slash workspaceId (repoflow.Id rp) Cw),
          (Split_no_slash _ Cr).
  split; reflexivity.
Qed.

Lemma composite_id_round_trip_witness :
  Split "ws-1/r1" = ["ws-1"; "r1"].
Proof.
  exact (proj1 (composite_id_round_trip
                  zeroModel _
                  (Fake.blank "r1" "local-example" "local" "npm")
                  "ws-1" _ eq_refl eq_refl eq_refl)).
Defined.

(** ** Delete and Read of a repository *)

(** X4. [Delete] makes exactly one client call, [DeleteRepository] on the
    workspace id and the repository id of the state (the composite id is
    not read); it never writes the response state, and it ends with an
    error exactly when the call failed. *)
Theorem Delete_one_call
        (W : Type) (client : repoflow.Client W) (w w1 : W)
        (state : RepositoryResourceModel)
        (state0 : option RepositoryResourceModel)
        (r : repoflow.Result repoflow.Repository) :
  repoflow.DeleteRepository client
    (types.ValueString (WorkspaceId state))
    (types.ValueString (RepositoryId state)) w = (r, w1) ->
  exists e,
    invoke (Delete client state) w state0 = Returned e
    /\ calls e =
       [repoflow.CallDeleteRepository
          (types.ValueString (WorkspaceId state))
          (types.ValueString (RepositoryId state))]
    /\ world e = w1
    /\ State e = state0
    /\ diag.HasError (Diagnostics e)
       = match r with inl _ => true | inr _ => false end.
Proof.
  intros Hr. run. rewrite Hr. destruct r as [err|rp]; cbn;
    eexists; repeat split.
Qed.

Lemma Delete_one_call_witness :
  exists e,
    invoke (Delete Fake.client Fake.local) 0 (Some Fake.local) = Returned e
    /\ calls e = [repoflow.CallDeleteRepository "example" ""]
    /\ State e = Some Fake.local.
Proof.
  destruct (Delete_one_call
              Fake.World Fake.client 0 0 Fake.local (Some Fake.local)
              _ eq_refl)
    as (e & He & Hc & _ & Hs & _).
  exists e. repeat split; assumption.
Defined.

(** X5. [Read] makes exactly one client call, [GetRepository] on the
    workspace id and the repository id of the state, and ends with an
    error exactly when that call failed; on success it writes one trace
    line, on failure none. *)
Theorem Read_one_call
        (W : Type) (client : repoflow.Client W) (w w1 : W)
        (state : RepositoryResourceModel)
        (state0 : option RepositoryResourceModel)
        (r : repoflow.Result repoflow.Repository) :
  repoflow.GetRepository client
    (types.ValueString (WorkspaceId state))
    (types.ValueString (RepositoryId state)) w = (r, w1) ->
  exists e,
    invoke (Read client state) w state0 = Returned e
    /\ calls e =
       [repoflow.CallGetRepository
          (types.ValueString (WorkspaceId state))
          (types.ValueString (RepositoryId state))]
    /\ world e = w1
    /\ diag.HasError (Diagnostics e)
       = match r with inl _ => true | inr _ => false end
    /\ logs e =
       match r with
       | inl _ => []
       | inr rp => [tflog.mkEntry tflog.LevelTrace "get a repoflow resource"
                      [("id", tflog.FString (repoflow.Id rp))]]
       end.
Proof.
  intros Hr. run. rewrite Hr. destruct r as [err|rp]; cbn;
    eexists; repeat split.
Qed.

Lemma Read_one_call_witness :
  exists e,
    invoke (Read Fake.client Fake.local) 1 (Some Fake.local) = Returned e
    /\ calls e = [repoflow.CallGetRepository "example" ""]
    /\ diag.HasError (Diagnostics e) = true
    /\ logs e = [].
Proof.
  destruct (Read_one_call
              Fake.World Fake.client 1 0 Fake.local (Some Fake.local)
              _ eq_refl)
    as (e & He & Hc & _ & Hd & Hl).
  exists e. repeat split; assumption.
Defined.

(** ** The mapping of a record *)

(** X6. The child repositories of a record come back as their ids, in the
    order of the record: a nil slice maps to a null list, and a slice, the
    empty one too, maps to a known list that [ElementsAs] converts to
    exactly the ids of the children, without a diagnostic. *)
Theorem mapResponseToModel_children
        (data : RepositoryResourceModel) (rp : repoflow.Repository)
        (workspaceId : string) :
  exists m ds,
    mapResponseToModel data (Some rp) workspaceId = Some (m, ds)
    /\ match repoflow.ChildRepositories rp with
       | None => ChildRepositoryIds m = types.ListNull
       | Some children =>
           types.List_IsNull (ChildRepositoryIds m) = false
           /\ ElementsAs (ChildRepositoryIds m)
              = (map repoflow.ChildId children, [])
       end.
Proof.
  do 2 eexists. split; [reflexivity|]. cbn.
  destruct (repoflow.ChildRepositories rp) as [children|]; [|reflexivity].
  split; [reflexivity|].
  unfold ElementsAs, types.ListValueFrom.
  now rewrite elementsAsStrings_known.
Qed.

(** X7. Mapping the same record a second time changes nothing: the model
    that [mapResponseToModel] gives is a fixed point of the mapping. *)
Theorem mapResponseToModel_idempotent
        (data m : RepositoryResourceModel) (rp : repoflow.Repository)
        (workspaceId : string) (ds : diag.Diagnostics) :
  mapResponseToModel data (Some rp) workspaceId = Some (m, ds) ->
  mapResponseToModel m (Some rp) workspaceId = Some (m, ds).
Proof.
  intros H. inversion H; subst; clear H. cbn.
  destruct (repoflow.RepositoryType rp =? ""); reflexivity.
Qed.

Lemma mapResponseToModel_idempotent_witness :
  exists m ds,
    mapResponseToModel Fake.local
      (Some (Fake.blank "r1" "local-example" "" "")) "ws-1" = Some (m, ds)
    /\ mapResponseToModel m
         (Some (Fake.blank "r1" "local-example" "" "")) "ws-1" = Some (m, ds).
Proof.
  do 2 eexists. split; [reflexivity|].
  exact (mapResponseToModel_idempotent
           Fake.local _ (Fake.blank "r1" "local-example" "" "") "ws-1" _
           eq_refl).
Defined.

(** X8. When the record has a repository type, the mapped model is a
    function of the record and the workspace id alone: nothing of the
    model that was there before survives the mapping. *)
Theorem mapResponseToModel_overwrites
        (data data' : RepositoryResourceModel) (rp : repoflow.Repository)
        (workspaceId : string) :
  repoflow.RepositoryType rp <> "" ->
  mapResponseToModel data (Some rp) workspaceId
  = mapResponseToModel data' (Some rp) workspaceId.
Proof.
  intros H. apply String.eqb_neq in H. cbn. now rewrite H.
Qed.

Lemma mapResponseToModel_overwrites_witness :
  mapResponseToModel Fake.local
    (Some (Fake.blank "r1" "local-example" "local" "npm")) "ws-1"
  = mapResponseToModel zeroModel
      (Some (Fake.blank "r1" "local-example" "local" "npm")) "ws-1".
Proof.
  apply (mapResponseToModel_overwrites
           Fake.local zeroModel
           (Fake.blank "r1" "local-example" "local" "npm") "ws-1").
  discriminate.
Defined.

(** ** More on Create *)

(** X9. With the type remote and a null [remote_repository_url], [Create]
    adds the error "Missing parameter" and returns: the workspace lookup
    is its only client call, no line is logged and the response state is
    not written. *)
Theorem Create_remote_null_url
        (W : Type) (client : repoflow.Client W) (w : W)
        (plan : RepositoryResourceModel)
        (state0 : option RepositoryResourceModel) :
  RepositoryType plan = types.StringValue "remote" ->
  RemoteRepositoryUrl plan = types.StringNull ->
  exists e,
    invoke (Create client plan) w state0 = Returned e
    /\ calls e =
       [repoflow.CallGetWorkspace (types.ValueString (WorkspaceId plan))]
    /\ In (diag.NewErrorDiagnostic "Missing parameter"
             "'remote_repository_url' is mandatory for remote repository type.")
          (Diagnostics e)
    /\ logs e = []
    /\ State e = state0.
Proof.
  intros Ht Hu. run. rewrite Ht, Hu. cbn.
  destruct (repoflow.GetWorkspace client _ w) as [[err|ws] w1]; cbn;
    eexists; (split; [reflexivity|]); cbn; repeat split; auto.
Qed.

Lemma Create_remote_null_url_witness :
  exists e,
    invoke (Create Fake.client (Fake.plan "remote-example" "remote")) 0 None
    = Returned e
    /\ calls e = [repoflow.CallGetWorkspace "example"]
    /\ State e = None.
Proof.
  destruct (Create_remote_null_url
              Fake.World Fake.client 0
              (Fake.plan "remote-example" "remote") None eq_refl eq_refl)
    as (e & He & Hc & _ & _ & Hs).
  exists e. repeat split; assumption.
Defined.

Lemma In_HasError (ds : diag.Diagnostics) (d : diag.Diagnostic) :
  In d ds -> diag.Severity_ d = diag.SeverityError -> diag.HasError ds = true.
Proof.
  intros Hin Hs. unfold diag.HasError. apply existsb_exists.
  exists d. split; [assumption|]. now rewrite Hs.
Qed.

(** X10. Whenever [Create] returns, its client calls are the workspace
    lookup alone, with the state untouched and an error reported, or the
    lookup followed by one create call on the declared workspace; in the
    second case the state is written exactly when that call succeeded,
    with the repository id of the record it returned, and is untouched,
    with an error reported, when it failed. *)
Theorem Create_calls_then_state
        (W : Type) (client : repoflow.Client W) (w : W)
        (plan : RepositoryResourceModel)
        (state0 : option RepositoryResourceModel) (e : Env W) :
  invoke (Create client plan) w state0 = Returned e ->
  let workspace := types.ValueString (WorkspaceId plan) in
  let w1 := snd (repoflow.GetWorkspace client workspace w) in
  (calls e = [repoflow.CallGetWorkspace workspace]
   /\ State e = state0
   /\ diag.HasError (Diagnostics e) = true)
  \/
  (exists c r w2,
      calls e = [repoflow.CallGetWorkspace workspace; c]
      /\ createWorkspace c = Some workspace
      /\ createAnswer client c w1 = Some (r, w2)
      /\ world e = w2
      /\ match r with
         | inl _ =>
             State e = state0 /\ diag.HasError (Diagnostics e) = true
         | inr rp =>
             exists m,
               State e = Some m
               /\ RepositoryId m = types.StringValue (repoflow.Id rp)
         end).
Proof.
  assert (Hadd : forall ds s d,
             diag.HasError
               (if diag.Contains ds (diag.NewErrorDiagnostic s d)
                then ds else (ds ++ [diag.NewErrorDiagnostic s d])%list)
             = true)
    by (intros; apply (HasError_AddError ds s d)).
  run.
  destruct (repoflow.GetWorkspace client _ w) as [lookup w1] eqn:Hws. cbn.
  destruct (types.ValueString (RepositoryType plan) =? "local").
  { destruct lookup as [lerr|ws]; cbn;
      destruct (repoflow.CreateLocalRepository client _ _ w1)
        as [[err|rp] w2] eqn:Hc; cbn; intros He; inversion He; subst e;
      right; eexists _, _, w2; (split; [reflexivity|]); cbn;
      rewrite Hc; repeat split; eauto; apply Hadd. }
  destruct (types.ValueString (RepositoryType plan) =? "remote").
  { destruct (types.String_IsNull (RemoteRepositoryUrl plan)).
    { destruct lookup as [lerr|ws]; cbn;
        intros He; inversion He; subst e; left; repeat split. }
    destruct lookup as [lerr|ws]; cbn;
      destruct (repoflow.CreateRemoteRepository client _ _ w1)
        as [[err|rp] w2] eqn:Hc; cbn; intros He; inversion He; subst e;
      right; eexists _, _, w2; (split; [reflexivity|]); cbn;
      rewrite Hc; repeat split; eauto; apply Hadd. }
  destruct (types.ValueString (RepositoryType plan) =? "virtual");
    [ | destruct lookup; cbn; intros He; discriminate He ].
  destruct (types.List_IsNull (ChildRepositoryIds plan)).
  { destruct lookup as [lerr|ws]; cbn;
      intros He; inversion He; subst e; left; repeat split. }
  destruct (ElementsAs (ChildRepositoryIds plan)) as [childIds diags].
  destruct lookup as [lerr|ws]; cbn.
  - (* the lookup failed: the check after the conversion returns *)
    match goal with
    | |- context [existsb ?f (diag.Append ?l diags)] =>
        assert (Hd : existsb f (diag.Append l diags) = true)
    end.
    { eapply In_HasError; [apply In_Append; now left | reflexivity]. }
    rewrite Hd. cbn. intros He; inversion He; subst e.
    left. repeat split. exact Hd.
  - destruct (existsb _ (diag.Append [] diags)) eqn:Hd; cbn.
    + intros He; inversion He; subst e. left. repeat split. exact Hd.
    + destruct (repoflow.CreateVirtualRepository client _ _ w1)
        as [[err|rp] w2] eqn:Hc; cbn; intros He; inversion He; subst e;
        right; eexists _, _, w2; (split; [reflexivity|]); cbn;
        rewrite Hc; repeat split; eauto; apply Hadd.
Qed.

Lemma Create_calls_then_state_witness :
  exists c,
    calls (final (invoke (Create Fake.client Fake.local) 1 None)) =
    [repoflow.CallGetWorkspace "example"; c]
    /\ createWorkspace c = Some "example".
Proof.
  destruct (Create_calls_then_state
              Fake.World Fake.client 1 Fake.local None
              (final (invoke (Create Fake.client Fake.local) 1 None))
              eq_refl)
    as [[Hc _] | (c & r & w2 & Hc & Hw & _)].
  - discriminate Hc.
  - exists c. split; assumption.
Defined.

Lemma HasError_Append_new (new ds : diag.Diagnostics) :
  diag.HasError new = true -> diag.HasError (diag.Append ds new) = true.
Proof.
  revert ds. induction new as [|n new IH]; intros ds H; [discriminate|].
  simpl. unfold diag.HasError in H. simpl in H.
  apply orb_true_iff in H. destruct H as [Hn|Hrest].
  - destruct (diag.Contains ds n) eqn:C.
    + unfold diag.Contains in C. apply existsb_exists in C.
      destruct C as [d [Hin Heq]]. apply Equal_Severity in Heq.
      apply In_HasError with (d := d); [now apply In_Append|].
      rewrite <- Heq.
      destruct (diag.Severity_ n); [reflexivity | discriminate].
    + apply In_HasError with (d := n).
      * apply In_Append, in_or_app. right. now left.
      * destruct (diag.Severity_ n); [reflexivity | discriminate].
  - now apply IH.
Qed.

(** X11. [Create] panics exactly on a repository type its switch does not
    know: for the types local, remote and virtual it returns, whatever the
    client answers, and for every other value it dereferences the nil
    record. *)
Theorem Create_panics_iff
        (W : Type) (client : repoflow.Client W) (w : W)
        (plan : RepositoryResourceModel)
        (state0 : option RepositoryResourceModel) :
  (exists e, invoke (Create client plan) w state0 = Panicked e)
  <-> ~ In (types.ValueString (RepositoryType plan))
           ["local"; "remote"; "virtual"].
Proof.
  split.
  - intros [e He] Hin. revert He. run.
    destruct (repoflow.GetWorkspace client _ w) as [lookup w1]. cbn.
    destruct Hin as [H|[H|[H|[]]]]; rewrite <- H; cbn.
    + destruct lookup; cbn;
        destruct (repoflow.CreateLocalRepository client _ _ w1)
          as [[err|rp] w2]; cbn; discriminate.
    + destruct (types.String_IsNull (RemoteRepositoryUrl plan));
        destruct lookup; cbn; try discriminate;
        destruct (repoflow.CreateRemoteRepository client _ _ w1)
          as [[err|rp] w2]; cbn; discriminate.
    + destruct (types.List_IsNull (ChildRepositoryIds plan));
        [destruct lookup; cbn; discriminate|].
      destruct (ElementsAs (ChildRepositoryIds plan)) as [childIds diags].
      destruct lookup; cbn;
        match goal with
        | |- context [existsb ?f (diag.Append ?l diags)] =>
            destruct (existsb f (diag.Append l diags))
        end; cbn; try discriminate;
        destruct (repoflow.CreateVirtualRepository client _ _ w1)
          as [[err|rp] w2]; cbn; discriminate.
  - intros Hs.
    apply eqb_not_In in Hs. destruct Hs as [Hl Hs].
    apply eqb_not_In in Hs. destruct Hs as [Hr Hs].
    apply eqb_not_In in Hs. destruct Hs as [Hv _].
    run. rewrite Hl, Hr, Hv.
    destruct (repoflow.GetWorkspace client _ w) as [[err|ws] w1]; cbn;
      eexists; reflexivity.
Qed.

(** X12. For a virtual repository a failed workspace lookup does stop
    [Create]: the check of the diagnostics after the conversion of the
    child ids sees the error of the lookup, so no create call is made,
    nothing is logged and the state is not written. *)
Theorem Create_virtual_failed_lookup_stops
        (W : Type) (client : repoflow.Client W) (w w1 : W)
        (plan : RepositoryResourceModel)
        (state0 : option RepositoryResourceModel) (err : string) :
  RepositoryType plan = types.StringValue "virtual" ->
  repoflow.GetWorkspace client (types.ValueString (WorkspaceId plan)) w
  = (inl err, w1) ->
  exists e,
    invoke (Create client plan) w state0 = Returned e
    /\ calls e =
       [repoflow.CallGetWorkspace (types.ValueString (WorkspaceId plan))]
    /\ world e = w1
    /\ logs e = []
    /\ State e = state0
    /\ diag.HasError (Diagnostics e) = true.
Proof.
  intros Ht Hws. run. rewrite Ht, Hws. cbn.
  destruct (types.List_IsNull (ChildRepositoryIds plan)); cbn.
  { eexists. repeat split. }
  destruct (ElementsAs (ChildRepositoryIds plan)) as [childIds diags]; cbn.
  match goal with
  | |- context [existsb ?f (diag.Append ?l diags)] =>
      assert (Hd : existsb f (diag.Append l diags) = true)
  end.
  { eapply In_HasError; [apply In_Append; now left | reflexivity]. }
  rewrite Hd. cbn. eexists. repeat split. exact Hd.
Qed.

Lemma Create_virtual_failed_lookup_stops_witness :
  exists e,
    invoke (Create Fake.client
                   (Fake.virtual (types.ListValueFrom ["r1"])
                                 types.StringNull))
           1 None = Returned e
    /\ calls e = [repoflow.CallGetWorkspace "example"]
    /\ State e = None.
Proof.
  destruct (Create_virtual_failed_lookup_stops
              Fake.World Fake.client 1 0
              (Fake.virtual (types.ListValueFrom ["r1"]) types.StringNull)
              None "connection refused" eq_refl eq_refl)
    as (e & He & Hc & _ & _ & Hs & _).
  exists e. repeat split; assumption.
Defined.

(** X13. For a virtual repository whose child ids are not null but cannot
    be converted (the list or one of its elements is unknown or null),
    [Create] returns with the error of the conversion: the workspace
    lookup is its only client call and the state is not written. *)
Theorem Create_virtual_unconvertible_children
        (W : Type) (client : repoflow.Client W) (w : W)
        (plan : RepositoryResourceModel)
        (state0 : option RepositoryResourceModel) :
  RepositoryType plan = types.StringValue "virtual" ->
  types.List_IsNull (ChildRepositoryIds plan) = false ->
  diag.HasError (snd (ElementsAs (ChildRepositoryIds plan))) = true ->
  exists e,
    invoke (Create client plan) w state0 = Returned e
    /\ calls e =
       [repoflow.CallGetWorkspace (types.ValueString (WorkspaceId plan))]
    /\ logs e = []
    /\ State e = state0
    /\ diag.HasError (Diagnostics e) = true.
Proof.
  intros Ht Hn Hconv. run. rewrite Ht, Hn. cbn.
  destruct (ElementsAs (ChildRepositoryIds plan)) as [childIds diags].
  cbn in Hconv.
  destruct (repoflow.GetWorkspace client _ w) as [[err|ws] w1]; cbn;
    match goal with
    | |- context [existsb ?f (diag.Append ?l diags)] =>
        assert (Hd : existsb f (diag.Append l diags) = true)
          by (apply (HasError_Append_new diags l Hconv))
    end; rewrite Hd; cbn; eexists; repeat split; exact Hd.
Qed.

(** The virtual repository of the examples with its child ids left out:
    the plan holds them as unknown. *)
Lemma Create_virtual_unconvertible_children_witness :
  exists e,
    invoke (Create Fake.client
                   (Fake.virtual types.ListUnknown types.StringUnknown))
           0 None = Returned e
    /\ calls e = [repoflow.CallGetWorkspace "example"]
    /\ State e = None
    /\ diag.HasError (Diagnostics e) = true.
Proof.
  destruct (Create_virtual_unconvertible_children
              Fake.World Fake.client 0
              (Fake.virtual types.ListUnknown types.StringUnknown)
              None eq_refl eq_refl eq_refl)
    as (e & He & Hc & _ & Hs & Hd).
  exists e. repeat split; assumption.
Defined.

(** ** The cache lifetimes, there and back *)

(** X14. Sending a declared lifetime and mapping it back gives the declared
    value again when it is null or a known 64-bit number; an unknown
    lifetime is sent as nil, like a null one, and so comes back null. *)
Theorem cache_lifetime_there_and_back (v : types.Int64) :
  (forall z, v = types.Int64Value z -> (- 2 ^ 63 <= z < 2 ^ 63)%Z) ->
  types.Int64PointerValue (factory.IntPtrToInt64Ptr (factory.Int64ToPtr v))
  = match v with
    | types.Int64Unknown => types.Int64Null
    | _ => v
    end.
Proof.
  intros H. destruct v as [| |z]; try reflexivity.
  specialize (H z eq_refl).
  rewrite (Int64ToPtr_value z H). now apply IntPtrToInt64Ptr_value.
Qed.

Lemma cache_lifetime_there_and_back_witness :
  types.Int64PointerValue
    (factory.IntPtrToInt64Ptr (factory.Int64ToPtr (types.Int64Value 3600000)))
  = types.Int64Value 3600000.
Proof.
  apply (cache_lifetime_there_and_back (types.Int64Value 3600000)).
  intros z Hz. inversion Hz; subst. lia.
Defined.

(** ** The workspace resource *)

Ltac run_workspace :=
  unfold workspace.invoke, workspace.Create, workspace.Read,
    workspace.Update, workspace.Delete, workspace.ImportState,
    workspace.call, workspace.bind, workspace.ret, workspace.Get,
    workspace.Append, workspace.HasError, workspace.AddError,
    workspace.StateSet, workspace.Trace, workspace.return_;
  cbn.

(** X15. [Create] of a workspace makes one client call, [CreateWorkspace]
    with the declared name.  When it succeeds the state is written from
    the answer, its id and its name, not from the plan; when it fails the
    state is not written and an error is reported. *)
Theorem workspace_Create_outcome
        (W : Type) (client : workspace.Client W) (w w1 : W)
        (plan : workspace.WorkspaceResourceModel)
        (state0 : option workspace.WorkspaceResourceModel)
        (r : repoflow.Result repoflow.Workspace) :
  workspace.CreateWorkspace client
    (workspace.mkWorkspaceOptions (types.ValueString (workspace.Name plan))) w
  = (r, w1) ->
  exists e,
    workspace.invoke (workspace.Create client plan) w state0
    = workspace.Returned e
    /\ workspace.calls e =
       [workspace.CallCreateWorkspace
          (workspace.mkWorkspaceOptions
             (types.ValueString (workspace.Name plan)))]
    /\ workspace.world e = w1
    /\ match r with
       | inl _ =>
           workspace.State e = state0
           /\ diag.HasError (workspace.Diagnostics e) = true
       | inr ws =>
           workspace.State e =
           Some (workspace.mkModel
                   (types.StringValue (repoflow.WsName ws))
                   (types.StringValue (repoflow.WsId ws)))
           /\ workspace.Diagnostics e = []
       end.
Proof.
  intros Hr. run_workspace. rewrite Hr. destruct r as [err|ws]; cbn;
    eexists; repeat split.
Qed.

Lemma workspace_Create_outcome_witness :
  exists e,
    workspace.invoke
      (workspace.Create FakeWorkspace.client FakeWorkspace.example) 0 None
    = workspace.Returned e
    /\ workspace.State e =
       Some (workspace.mkModel (types.StringValue "example")
                               (types.StringValue "ws-1")).
Proof.
  destruct (workspace_Create_outcome
              Fake.World FakeWorkspace.client 0 0 FakeWorkspace.example None
              (inr (repoflow.mkWorkspace "ws-1" "example")) eq_refl)
    as (e & He & _ & _ & Hs & _).
  exists e. split; assumption.
Defined.

(** X16. [Read] of a workspace makes one client call, [GetWorkspace] on
    the id of the state, and, unlike [Read] of a repository, writes what
    it fetched: on success the state holds the id and the name of the
    answer; on failure the state is left as it was and an error is
    reported. *)
Theorem workspace_Read_refreshes
        (W : Type) (client : workspace.Client W) (w w1 : W)
        (state : workspace.WorkspaceResourceModel)
        (state0 : option workspace.WorkspaceResourceModel)
        (r : repoflow.Result repoflow.Workspace) :
  workspace.GetWorkspace client (types.ValueString (workspace.Id state)) w
  = (r, w1) ->
  exists e,
    workspace.invoke (workspace.Read client state) w state0
    = workspace.Returned e
    /\ workspace.calls e =
       [workspace.CallGetWorkspace (types.ValueString (workspace.Id state))]
    /\ workspace.world e = w1
    /\ match r with
       | inl _ =>
           workspace.State e = state0
           /\ diag.HasError (workspace.Diagnostics e) = true
       | inr ws =>
           workspace.State e =
           Some (workspace.mkModel
                   (types.StringValue (repoflow.WsName ws))
                   (types.StringValue (repoflow.WsId ws)))
           /\ workspace.Diagnostics e = []
       end.
Proof.
  intros Hr. run_workspace. rewrite Hr. destruct r as [err|ws]; cbn;
    eexists; repeat split.
Qed.

Lemma workspace_Read_refreshes_witness :
  exists e,
    workspace.invoke
      (workspace.Read FakeWorkspace.client
         (workspace.mkModel (types.StringValue "renamed")
                            (types.StringValue "ws-1")))
      0 None
    = workspace.Returned e
    /\ workspace.State e =
       Some (workspace.mkModel (types.StringValue "example")
                               (types.StringValue "ws-1")).
Proof.
  destruct (workspace_Read_refreshes
              Fake.World FakeWorkspace.client 0 0
              (workspace.mkModel (types.StringValue "renamed")
                                 (types.StringValue "ws-1"))
              None (inr (repoflow.mkWorkspace "ws-1" "example")) eq_refl)
    as (e & He & _ & _ & Hs & _).
  exists e. split; assumption.
Defined.

(** X17. [Delete] of a workspace makes one client call, [DeleteWorkspace]
    on the name of the state (not on its id), never writes the state, and
    ends with an error exactly when the call failed. *)
Theorem workspace_Delete_by_name
        (W : Type) (client : workspace.Client W) (w w1 : W)
        (state : workspace.WorkspaceResourceModel)
        (state0 : option workspace.WorkspaceResourceModel)
        (r : repoflow.Result repoflow.Workspace) :
  workspace.DeleteWorkspace client
    (types.ValueString (workspace.Name state)) w = (r, w1) ->
  exists e,
    workspace.invoke (workspace.Delete client state) w state0
    = workspace.Returned e
    /\ workspace.calls e =
       [workspace.CallDeleteWorkspace
          (types.ValueString (workspace.Name state))]
    /\ workspace.world e = w1
    /\ workspace.State e = state0
    /\ diag.HasError (workspace.Diagnostics e)
       = match r with inl _ => true | inr _ => false end.
Proof.
  intros Hr. run_workspace. rewrite Hr. destruct r as [err|ws]; cbn;
    eexists; repeat split.
Qed.

Lemma workspace_Delete_by_name_witness :
  exists e,
    workspace.invoke
      (workspace.Delete FakeWorkspace.client
         (workspace.mkModel (types.StringValue "example")
                            (types.StringValue "ws-1")))
      0 None
    = workspace.Returned e
    /\ workspace.calls e = [workspace.CallDeleteWorkspace "example"].
Proof.
  destruct (workspace_Delete_by_name
              Fake.World FakeWorkspace.client 0 0
              (workspace.mkModel (types.StringValue "example")
                                 (types.StringValue "ws-1"))
              None _ eq_refl)
    as (e & He & Hc & _).
  exists e. split; assumption.
Defined.

(** X18. Importing a workspace by a non-empty id and reading it then
    fills in the name: [ImportState] makes no client call and writes the
    id it was given, and [Read] on that state asks for exactly that id
    and, when the call succeeds, ends with the id and the name of the
    answer.  (On the empty id [ImportState] writes nothing.) *)
Theorem workspace_import_then_read
        (W : Type) (client : workspace.Client W) (w w1 : W)
        (ID : string) (ws : repoflow.Workspace) :
  ID <> "" ->
  workspace.GetWorkspace client ID w = (inr ws, w1) ->
  exists e1 m e2,
    workspace.invoke (workspace.ImportState ID) w None
    = workspace.Returned e1
    /\ workspace.calls e1 = []
    /\ workspace.State e1 = Some m
    /\ workspace.Id m = types.StringValue ID
    /\ workspace.invoke (workspace.Read client m) (workspace.world e1)
                        (workspace.State e1)
       = workspace.Returned e2
    /\ workspace.calls e2 = [workspace.CallGetWorkspace ID]
    /\ workspace.State e2 =
       Some (workspace.mkModel
               (types.StringValue (repoflow.WsName ws))
               (types.StringValue (repoflow.WsId ws))).
Proof.
  intros Hid Hr. apply String.eqb_neq in Hid.
  pose (m := workspace.mkModel types.StringNull (types.StringValue ID)).
  exists (workspace.mkEnv w [] [] [] (Some m)), m.
  run_workspace. rewrite Hid. cbn. rewrite Hr. cbn.
  eexists. repeat split.
Qed.

Lemma workspace_import_then_read_witness :
  exists e1 m e2,
    workspace.invoke (workspace.ImportState "ws-1") 0 None
    = workspace.Returned e1
    /\ workspace.State e1 = Some m
    /\ workspace.invoke (workspace.Read FakeWorkspace.client m)
                        (workspace.world e1) (workspace.State e1)
       = workspace.Returned e2
    /\ workspace.State e2 =
       Some (workspace.mkModel (types.StringValue "example")
                               (types.StringValue "ws-1")).
Proof.
  destruct (workspace_import_then_read
              Fake.World FakeWorkspace.client 0 0 "ws-1"
              (repoflow.mkWorkspace "ws-1" "example")
              ltac:(discriminate) eq_refl)
    as (e1 & m & e2 & H1 & _ & Hs1 & _ & H2 & _ & Hs2).
  exists e1, m, e2. repeat split; assumption.
Defined.

(** ** The provider's configuration *)

(** X19. [Configure] hands the same client to data sources and resources
    in every case, also when it reports an error, and it reports an error
    exactly when the base URL or the API key that client was built from is
    empty. *)
Theorem Configure_error_iff_empty
        (Getenv : string -> string)
        (config : provider.RepoflowProviderModel) :
  exists c,
    provider.ResourceData (provider.Configure Getenv config) = Some c
    /\ provider.DataSourceData (provider.Configure Getenv config) = Some c
    /\ (diag.HasError
          (provider.Diagnostics (provider.Configure Getenv config)) = true
        <-> provider.baseURL c = "" \/ provider.apiKey c = "").
Proof.
  unfold provider.Configure. cbn.
  set (b := if negb (types.String_IsNull (provider.BaseURL config))
            then types.ValueString (provider.BaseURL config)
            else Getenv "REPOFLOW_BASE_URL").
  set (k := if negb (types.String_IsNull (provider.ApiKey config))
            then types.ValueString (provider.ApiKey config)
            else Getenv "REPOFLOW_API_KEY").
  eexists. split; [reflexivity|]. split; [reflexivity|]. cbn.
  destruct (String.eqb_spec b "") as [Hb|Hb];
    destruct (String.eqb_spec k "") as [Hk|Hk]; cbn;
    split; intros H; auto; try discriminate.
  destruct H; contradiction.
Qed.

(** X20. An attribute of the provider block that is not null wins over the
    environment: when both [base_url] and [api_key] are set in the block,
    [Configure] gives the same response whatever the environment holds, so
    an empty string in the block is an error even with the variable set. *)
Theorem Configure_block_over_environment
        (Getenv Getenv' : string -> string)
        (config : provider.RepoflowProviderModel) :
  types.String_IsNull (provider.BaseURL config) = false ->
  types.String_IsNull (provider.ApiKey config) = false ->
  provider.Configure Getenv config = provider.Configure Getenv' config.
Proof.
  intros Hb Hk. unfold provider.Configure. cbn. now rewrite Hb, Hk.
Qed.

Lemma Configure_block_over_environment_witness :
  provider.Configure
    (fun _ => "from-the-environment")
    (provider.mkProviderModel (types.StringValue "")
                              (types.StringValue "pat_xxx"))
  = provider.Configure
      (fun _ => "")
      (provider.mkProviderModel (types.StringValue "")
                                (types.StringValue "pat_xxx")).
Proof.
  exact (Configure_block_over_environment
           (fun _ => "from-the-environment") (fun _ => "")
           (provider.mkProviderModel (types.StringValue "")
                                     (types.StringValue "pat_xxx"))
           eq_refl eq_refl).
Defined.

(** X21. With a null provider block the environment decides: the client
    is built from [REPOFLOW_BASE_URL] and [REPOFLOW_API_KEY], and there is
    no diagnostic when both are set. *)
Theorem Configure_environment_fallback
        (Getenv : string -> string) :
  Getenv "REPOFLOW_BASE_URL" <> "" ->
  Getenv "REPOFLOW_API_KEY" <> "" ->
  provider.Configure Getenv
    (provider.mkProviderModel types.StringNull types.StringNull)
  = provider.mkConfigureResponse []
      (Some (provider.mkNewClient (Getenv "REPOFLOW_BASE_URL")
                                  (Getenv "REPOFLOW_API_KEY")))
      (Some (provider.mkNewClient (Getenv "REPOFLOW_BASE_URL")
                                  (Getenv "REPOFLOW_API_KEY"))).
Proof.
  intros Hb Hk. apply String.eqb_neq in Hb, Hk.
  unfold provider.Configure. cbn. now rewrite Hb, Hk.
Qed.

Lemma Configure_environment_fallback_witness :
  provider.ResourceData
    (provider.Configure
       (fun name => if name =? "REPOFLOW_BASE_URL"
                    then "https://repoflow.example/api" else "pat_xxx")
       (provider.mkProviderModel types.StringNull types.StringNull))
  = Some (provider.mkNewClient "https://repoflow.example/api" "pat_xxx").
Proof.
  rewrite (Configure_environment_fallback
             (fun name => if name =? "REPOFLOW_BASE_URL"
                          then "https://repoflow.example/api" else "pat_xxx"));
    [reflexivity | discriminate | discriminate].
Defined.

(** ** Create, then Read and Delete *)

Lemma Read_calls
      (W : Type) (client : repoflow.Client W) (w : W)
      (state : RepositoryResourceModel)
      (state0 : option RepositoryResourceModel) :
  calls (final (invoke (Read client state) w state0)) =
  [repoflow.CallGetRepository
     (types.ValueString (WorkspaceId state))
     (types.ValueString (RepositoryId state))].
Proof.
  run. destruct (repoflow.GetRepository client _ _ w) as [[err|rp] w1];
    reflexivity.
Qed.

Lemma Delete_calls
      (W : Type) (client : repoflow.Client W) (w : W)
      (state : RepositoryResourceModel)
      (state0 : option RepositoryResourceModel) :
  calls (final (invoke (Delete client state) w state0)) =
  [repoflow.CallDeleteRepository
     (types.ValueString (WorkspaceId state))
     (types.ValueString (RepositoryId state))].
Proof.
  run. destruct (repoflow.DeleteRepository client _ _ w) as [[err|rp] w1];
    reflexivity.
Qed.

(** What a run of [Create] without an error leaves: the state is the plan
    mapped over the record the create call returned. *)
Lemma Create_success_state
      (W : Type) (client : repoflow.Client W) (w w1 : W)
      (plan : RepositoryResourceModel)
      (state0 : option RepositoryResourceModel)
      (ws : repoflow.Workspace) (e : Env W) :
  repoflow.GetWorkspace client (types.ValueString (WorkspaceId plan)) w
  = (inr ws, w1) ->
  invoke (Create client plan) w state0 = Returned e ->
  diag.HasError (Diagnostics e) = false ->
  exists c rp w2 m,
    calls e =
    [repoflow.CallGetWorkspace (types.ValueString (WorkspaceId plan)); c]
    /\ createAnswer client c w1 = Some (inr rp, w2)
    /\ State e = Some m
    /\ mapResponseToModel plan (Some rp) (repoflow.WsId ws) = Some (m, []).
Proof.
  intros Hws. run. rewrite Hws. cbn.
  destruct (types.ValueString (RepositoryType plan) =? "local"); cbn.
  { destruct (repoflow.CreateLocalRepository client _ _ w1)
      as [[err|rp] w2] eqn:Hc; cbn; intros He Herr;
      inversion He; subst e; cbn in *; try discriminate.
    eexists _, rp, w2, _. split; [reflexivity|].
    cbn. rewrite Hc. repeat split. }
  destruct (types.ValueString (RepositoryType plan) =? "remote"); cbn.
  { destruct (types.String_IsNull (RemoteRepositoryUrl plan)); cbn.
    { intros He Herr. inversion He; subst e. discriminate. }
    destruct (repoflow.CreateRemoteRepository client _ _ w1)
      as [[err|rp] w2] eqn:Hc; cbn; intros He Herr;
      inversion He; subst e; cbn in *; try discriminate.
    eexists _, rp, w2, _. split; [reflexivity|].
    cbn. rewrite Hc. repeat split. }
  destruct (types.ValueString (RepositoryType plan) =? "virtual"); cbn.
  { destruct (types.List_IsNull (ChildRepositoryIds plan)); cbn.
    { intros He Herr. inversion He; subst e. discriminate. }
    destruct (ElementsAs (ChildRepositoryIds plan)) as [childIds diags]; cbn.
    destruct (existsb _ (diag.Append [] diags)) eqn:Hd; cbn.
    { intros He Herr. inversion He; subst e.
      unfold diag.HasError in Herr. cbn in Herr. congruence. }
    destruct (repoflow.CreateVirtualRepository client _ _ w1)
      as [[err|rp] w2] eqn:Hc; cbn; intros He Herr;
      inversion He; subst e; cbn in *.
    - discriminate
        (eq_trans (eq_sym Herr)
           (HasError_AddError (diag.Append [] diags) "Client Error"
              ("Unable to create repository, got error: " ++ err))).
    - eexists _, rp, w2, _. split; [reflexivity|].
      cbn. rewrite Hc. repeat split. }
  intros He. discriminate.
Qed.

(** X22. The state that a run of [Create] without an error writes leads
    [Read] and [Delete] back to the repository that was created: each of
    them makes its one client call on the workspace id the lookup answered
    and on the id of the record the create call returned. *)
Theorem Create_then_Read_and_Delete
        (W : Type) (client : repoflow.Client W) (w w1 : W)
        (plan : RepositoryResourceModel)
        (state0 : option RepositoryResourceModel)
        (ws : repoflow.Workspace) (e : Env W) :
  repoflow.GetWorkspace client (types.ValueString (WorkspaceId plan)) w
  = (inr ws, w1) ->
  invoke (Create client plan) w state0 = Returned e ->
  diag.HasError (Diagnostics e) = false ->
  exists c rp w2 m,
    In c (calls e)
    /\ createAnswer client c w1 = Some (inr rp, w2)
    /\ State e = Some m
    /\ (forall w' state',
           calls (final (invoke (Read client m) w' state')) =
           [repoflow.CallGetRepository (repoflow.WsId ws) (repoflow.Id rp)])
    /\ (forall w' state',
           calls (final (invoke (Delete client m) w' state')) =
           [repoflow.CallDeleteRepository (repoflow.WsId ws) (repoflow.Id rp)]).
Proof.
  intros Hws He Herr.
  destruct (Create_success_state W client w w1 plan state0 ws e Hws He Herr)
    as (c & rp & w2 & m & Hc & Ha & Hs & Hm).
  exists c, rp, w2, m. repeat split; try assumption.
  - rewrite Hc. right. now left.
  - intros w' state'. rewrite Read_calls.
    inversion Hm; subst. reflexivity.
  - intros w' state'. rewrite Delete_calls.
    inversion Hm; subst. reflexivity.
Qed.

Lemma Create_then_Read_and_Delete_witness :
  exists m,
    State (final (invoke (Create Fake.client Fake.local) 0 None)) = Some m
    /\ calls (final (invoke (Read Fake.client m) 0 (Some m))) =
       [repoflow.CallGetRepository "ws-1" "r1"]
    /\ calls (final (invoke (Delete Fake.client m) 0 (Some m))) =
       [repoflow.CallDeleteRepository "ws-1" "r1"].
Proof.
  destruct (Create_then_Read_and_Delete
              Fake.World Fake.client 0 0 Fake.local None
              (repoflow.mkWorkspace "ws-1" "example")
              (final (invoke (Create Fake.client Fake.local) 0 None))
              eq_refl eq_refl eq_refl)
    as (c & rp & w2 & m & Hin & Ha & Hs & Hr & Hd).
  exists m. split; [exact Hs|].
  destruct Hin as [<-|[<-|[]]]; [discriminate Ha|].
  cbn in Ha. inversion Ha; subst rp.
  split; [apply Hr | apply Hd].
Defined.

(** ** ImportState: state and diagnostics *)

(** X23. [ImportState] always returns, and it writes the state exactly
    when it ends without an error: with an error among the diagnostics
    (a malformed id, a failed lookup, a failed fetch) the response state
    is the one the invocation started from. *)
Theorem ImportState_state_iff_no_error
        (W : Type) (client : repoflow.Client W) (w : W)
        (state0 : option RepositoryResourceModel) (ID : string) :
  exists e,
    invoke (ImportState client ID) w state0 = Returned e
    /\ (diag.HasError (Diagnostics e) = true -> State e = state0)
    /\ (diag.HasError (Diagnostics e) = false ->
        exists m, State e = Some m
                  /\ types.ValueString (Id m) =
                     types.ValueString (WorkspaceId m) ++ "/"
                     ++ types.ValueString (RepositoryId m)).
Proof.
  unfold_handlers.
  destruct (Split ID) as [|a [|b [|c l]]];
    try (eexists; split; [reflexivity|]; cbn; split;
         [reflexivity | discriminate]).
  destruct (a =? ""); cbn;
    [eexists; split; [reflexivity|]; cbn; split;
     [reflexivity | discriminate]|].
  destruct (b =? ""); cbn;
    [eexists; split; [reflexivity|]; cbn; split;
     [reflexivity | discriminate]|].
  destruct (repoflow.GetWorkspace client a w) as [[lerr|ws] w1]; cbn;
    match goal with
    | |- context [repoflow.GetRepository client ?x b w1] =>
        destruct (repoflow.GetRepository client x b w1) as [[err|rp] w2]
    end; cbn;
    eexists; (split; [reflexivity|]); cbn; split;
    try reflexivity; try discriminate.
  - intros _. eexists. split; reflexivity.
Qed.
